(** * Yma anonymization middleware: retry policy, failure classification
      and request handlers

    A shallow embedding of [app/services/simplex.py], [app/services/llm.py],
    [app/models.py] and [app/main.py].  Coroutines become functions in a
    monad that threads a [world] (request counters, the monotonic clock, the
    sleeps taken, the log) and may raise a Python exception.  The two
    upstream services are oracles of an [environment]: the outcome of the
    n-th request sent to each of them. *)

From Stdlib Require Import ZArith NArith List String Ascii Bool Lia.
From Stdlib Require Import DecimalString.
From Stdlib Require Import Floats.SpecFloat.
From Equations Require Import Equations.
Import ListNotations.

Local Open Scope string_scope.
Local Open Scope Z_scope.

Set Implicit Arguments.
Set Warnings "-register-all".

(** ** Python values *)

(** What [response.json()] hands back: [None], [bool], [int], [float],
    [str], [list] and [dict].  A dict is kept as its items; a key is looked
    up at its first binding. *)
Inductive json : Type :=
| JNull
| JBool (b : bool)
| JInt (n : Z)
| JFloat (f : spec_float)
| JStr (s : string)
| JList (items : list json)
| JDict (items : list (string * json)).

Fixpoint dict_get (key : string) (items : list (string * json)) : option json :=
  match items with
  | [] => None
  | (k, v) :: rest => if String.eqb k key then Some v else dict_get key rest
  end.

(** [str(n)] for a Python int. *)
Definition str_of_int (n : Z) : string := NilZero.string_of_int (Z.to_int n).

(** ** Exceptions *)

(** The exception classes the two services and the handlers meet.
    [OtherError] stands for any class that derives from [Exception]
    directly and is unrelated to the others. *)
Inductive exn_class : Type :=
| ExceptionClass
| SimplexError
| SimplexNetworkError
| SimplexAuthError
| SimplexNotFoundError
| SimplexRateLimitError
| SimplexClientError
| SimplexServerError
| HttpxTransportError
| HttpxTimeoutException
| JSONDecodeError
| ValidationError
| APIError
| APIConnectionError
| APITimeoutError
| APIStatusError
| RateLimitError
| BadRequestError
| TimeoutError
| IndexError
| RetryError
| HTTPExceptionClass
| OtherError (name : string).

Definition exn_class_eq_dec (a b : exn_class) : {a = b} + {a <> b}.
Proof. decide equality. apply string_dec. Defined.

Definition exn_class_eqb (a b : exn_class) : bool :=
  if exn_class_eq_dec a b then true else false.

(** The direct base class, [None] for [Exception] itself. *)
Definition base_class (c : exn_class) : option exn_class :=
  match c with
  | ExceptionClass => None
  | SimplexNetworkError | SimplexAuthError | SimplexNotFoundError
  | SimplexRateLimitError | SimplexClientError | SimplexServerError => Some SimplexError
  | HttpxTimeoutException => Some HttpxTransportError
  | APIConnectionError | APIStatusError => Some APIError
  | APITimeoutError => Some APIConnectionError
  | RateLimitError | BadRequestError => Some APIStatusError
  | _ => Some ExceptionClass
  end.

Fixpoint ancestors (depth : nat) (c : exn_class) : list exn_class :=
  match depth with
  | O => [c]
  | S d => c :: match base_class c with
                | Some b => ancestors d b
                | None => []
                end
  end.

(** No chain of bases is longer than four classes. *)
Definition issubclass (c d : exn_class) : bool :=
  existsb (exn_class_eqb d) (ancestors 4 c).

(** An exception value: its class, its message ([str(e)]) and the
    [__cause__] set by [raise ... from].  [HTTPExc] is FastAPI's
    [HTTPException], which carries a status code and a detail. *)
Inductive exception : Type :=
| Exc (cls : exn_class) (msg : string) (cause : option exception)
| HTTPExc (status_code : Z) (detail : string) (cause : option exception).

Definition type_of (e : exception) : exn_class :=
  match e with
  | Exc c _ _ => c
  | HTTPExc _ _ _ => HTTPExceptionClass
  end.

Definition str_of (e : exception) : string :=
  match e with
  | Exc _ m _ => m
  | HTTPExc c d _ => str_of_int c ++ ": " ++ d
  end.

(** [type(e).__name__]. *)
Definition class_name (c : exn_class) : string :=
  match c with
  | ExceptionClass => "Exception"
  | SimplexError => "SimplexError"
  | SimplexNetworkError => "SimplexNetworkError"
  | SimplexAuthError => "SimplexAuthError"
  | SimplexNotFoundError => "SimplexNotFoundError"
  | SimplexRateLimitError => "SimplexRateLimitError"
  | SimplexClientError => "SimplexClientError"
  | SimplexServerError => "SimplexServerError"
  | HttpxTransportError => "TransportError"
  | HttpxTimeoutException => "TimeoutException"
  | JSONDecodeError => "JSONDecodeError"
  | ValidationError => "ValidationError"
  | APIError => "APIError"
  | APIConnectionError => "APIConnectionError"
  | APITimeoutError => "APITimeoutError"
  | APIStatusError => "APIStatusError"
  | RateLimitError => "RateLimitError"
  | BadRequestError => "BadRequestError"
  | TimeoutError => "TimeoutError"
  | IndexError => "IndexError"
  | RetryError => "RetryError"
  | HTTPExceptionClass => "HTTPException"
  | OtherError name => name
  end.

(** [isinstance(e, (c1, ..., cn))]. *)
Definition isinstance (e : exception) (classes : list exn_class) : bool :=
  existsb (issubclass (type_of e)) classes.

(** ** The world and the coroutine monad *)

Inductive level : Type := INFO | WARNING | ERROR.

(** A structlog call: the level, the event and the keyword arguments that
    the model keeps, as text. *)
Record log_entry : Type := LogEntry {
  log_level : level;
  log_event : string;
  log_fields : list (string * string);
}.

(** One chat-completion request as sent: the model name and the messages
    as (role, content) pairs. *)
Record chat_request : Type := ChatRequest {
  req_model : string;
  req_messages : list (string * string);
}.

Record world : Type := World {
  simplex_calls : nat;        (* requests sent through the Simplex client *)
  llm_calls : nat;            (* chat.completions.create calls made *)
  llm_sent : list chat_request; (* what they carried, oldest first *)
  uuid_calls : nat;           (* uuid.uuid4() calls made *)
  now_ns : Z;                 (* the monotonic clock, in nanoseconds *)
  slept : list Z;             (* seconds slept between attempts, oldest first *)
  logged : list log_entry;    (* oldest first *)
}.

Inductive outcome (A : Type) : Type :=
| Returned (a : A)
| Raised (e : exception).
Arguments Returned {A} a.
Arguments Raised {A} e.

(** A coroutine: it runs to its end in a world, returns or raises, and
    leaves the world as changed up to that point. *)
Definition M (A : Type) : Type := world -> outcome A * world.

Definition ret {A} (a : A) : M A := fun w => (Returned a, w).
Definition raise {A} (e : exception) : M A := fun w => (Raised e, w).
Definition bind {A B} (c : M A) (k : A -> M B) : M B :=
  fun w => match c w with
           | (Returned a, w1) => k a w1
           | (Raised e, w1) => (Raised e, w1)
           end.
(** [try: c  except (c1, ..., cn) as e: h e]: an exception of another
    class goes on to the caller. *)
Definition try_except_of {A} (classes : list exn_class) (c : M A)
    (h : exception -> M A) : M A :=
  fun w => match c w with
           | (Returned a, w1) => (Returned a, w1)
           | (Raised e, w1) =>
               if isinstance e classes then h e w1 else (Raised e, w1)
           end.
(** [try: c  except Exception as e: h e]. *)
Definition try_except {A} (c : M A) (h : exception -> M A) : M A :=
  fun w => match c w with
           | (Returned a, w1) => (Returned a, w1)
           | (Raised e, w1) => h e w1
           end.

Declare Scope coroutine_scope.
Delimit Scope coroutine_scope with coroutine.
Notation "x <- c ;; k" := (bind c (fun x => k))
  (at level 100, c at next level, right associativity) : coroutine_scope.
Notation "c ;; k" := (bind c (fun _ => k))
  (at level 100, right associativity) : coroutine_scope.
Local Open Scope coroutine_scope.

Definition log (l : level) (event : string) (fields : list (string * string))
    : M unit :=
  fun w => (Returned tt,
            {| simplex_calls := simplex_calls w; llm_calls := llm_calls w;
               llm_sent := llm_sent w; uuid_calls := uuid_calls w;
               now_ns := now_ns w; slept := slept w;
               logged := logged w ++ [LogEntry l event fields] |}).

(** [time.monotonic()], kept in nanoseconds. *)
Definition monotonic : M Z := fun w => (Returned (now_ns w), w).

(** [await asyncio.sleep(seconds)]. *)
Definition sleep (seconds : Z) : M unit :=
  fun w => (Returned tt,
            {| simplex_calls := simplex_calls w; llm_calls := llm_calls w;
               llm_sent := llm_sent w; uuid_calls := uuid_calls w;
               now_ns := now_ns w + Z.max 0 seconds * 1000000000;
               slept := slept w ++ [seconds];
               logged := logged w |}).

(** ** tenacity *)

(** Modelled from the spec: [tenacity.wait_exponential] is library code that
    the repository imports and does not contain.  Section 4.2 gives the
    wait after attempt [k] as multiplier x exp_base^(k-1), capped at [max];
    the library also keeps it at or above [min].  Attempts are numbered
    from 1. *)
Definition wait_exponential (multiplier max exp_base min : Z)
    (attempt_number : nat) : Z :=
  let exp := exp_base ^ (Z.of_nat attempt_number - 1) in
  let result := multiplier * exp in
  Z.max (Z.max 0 min) (Z.min result max).

(** The keyword arguments of [tenacity.retry] that the repository sets:
    [reraise], [stop=stop_after_attempt(n)], [wait], 
    [retry=retry_if_exception_type(classes)] and [before_sleep], which
    receives the attempt number, the seconds about to be slept and the
    exception of the attempt. *)
Record retry_policy : Type := RetryPolicy {
  reraise : bool;
  stop_after_attempt : nat;
  wait : nat -> Z;
  retry_if_exception_type : list exn_class;
  before_sleep : nat -> Z -> exception -> M unit;
}.

Section Retrying.
Variable A : Type.
Variable p : retry_policy.
Variable fn : M A.

(** Modelled from the spec: the loop of [tenacity.retry] (library code,
    absent from the repository), as section 4.2 describes it.  Run the
    operation; a result, or a failure the predicate does not match, goes
    to the caller as it is; a matching failure at the last allowed
    attempt is raised again ([reraise=True]) or wrapped in [RetryError];
    otherwise the wait is computed, [before_sleep] runs, the coroutine
    sleeps and the next attempt starts. *)
Equations retry_from (attempt_number : nat) (w : world) : outcome A * world
  by wf (stop_after_attempt p - attempt_number)%nat lt :=
  retry_from attempt_number w with fn w => {
    | (Returned a, w1) => (Returned a, w1)
    | (Raised e, w1) with isinstance e (retry_if_exception_type p) => {
      | false => (Raised e, w1)
      | true with le_dec (stop_after_attempt p) attempt_number => {
        | left _ =>
            if reraise p then (Raised e, w1)
            else (Raised (Exc RetryError "RetryError" (Some e)), w1)
        | right _ =>
            let seconds := wait p attempt_number in
            let w2 := snd (before_sleep p attempt_number seconds e w1) in
            let w3 := snd (sleep seconds w2) in
            retry_from (S attempt_number) w3 } } }.
Next Obligation. lia. Qed.

(** The decorated coroutine. *)
Definition retrying : M A := retry_from 1.
End Retrying.

(** ** The environment *)

(** An [httpx.Response] as far as the service reads it: the status code,
    what [response.json()] does (returns the decoded body or raises) and
    [response.text]. *)
Record Response : Type := {
  status_code : Z;
  response_json : outcome json;
  text : string;
}.

(** What sending one request ends in: an exception of httpx's transport
    family ([httpx.TransportError], or its subclass
    [httpx.TimeoutException] when [timeout] is set), a response, or any
    other exception that the client raises ([httpx.DecodingError] on a
    body that does not decompress, [httpx.TooManyRedirects], ...). *)
Inductive sent : Type :=
| TransportFailure (timeout : bool) (msg : string)
| Responded (r : Response)
| OtherFailure (exc : exception).

Record Choice : Type := { message_content : option string }.

Record CompletionUsage : Type := {
  prompt_tokens : Z;
  completion_tokens : Z;
  total_tokens : Z;
}.

Record ChatCompletion : Type := {
  choices : list Choice;
  usage : option CompletionUsage;
  model : string;
}.

Record environment : Type := {
  simplex_send : nat -> sent;       (* outcome of the n-th Simplex request *)
  simplex_took : nat -> N;          (* nanoseconds it took *)
  llm_create : nat -> outcome ChatCompletion;
                                    (* outcome of the n-th create() call *)
  llm_took : nat -> N;              (* nanoseconds it took *)
  uuid4 : nat -> string;            (* str(uuid.uuid4()), by call *)
  ANONYMIZE_PROMPT : string;        (* the text of prompts.ANONYMIZE_PROMPT *)
  config_model : string;            (* LLMConfig.model *)
}.

(** httpx.codes *)
Module codes.
Definition OK : Z := 200.
Definition MULTIPLE_CHOICES : Z := 300.
Definition BAD_REQUEST : Z := 400.
Definition UNAUTHORIZED : Z := 401.
Definition NOT_FOUND : Z := 404.
Definition TOO_MANY_REQUESTS : Z := 429.
Definition INTERNAL_SERVER_ERROR : Z := 500.
End codes.

(** ** The pydantic models of the Simplex payloads *)

Record SimplexPatientVisitHistoryItem : Type := {
  Patient_Visit_Medical_Family_Social_History_Details_Serial_No : string;
  Patient_Basic_Details_Serial_No : string;
  Patient_Visit_Basic_Details_Serial_No : string;
  Past_MH : string;
  Is_Past_MH_a_Warning : string;
  Past_Surgical_MH : string;
  Is_Past_Surgical_MH_a_Warning : string;
  Other_Family_MH : string;
  Is_Other_Family_MH_a_Warning : string;
  Med_Fam_Social_History_Note : string;
  Is_Med_Fam_Social_History_Note_a_Warning : string;
  Permanent_MRN_No : string;
  Permanent_Visit_No : string;
  Patient_Visit_Registration_Note : option string;   (* str | None = None *)
  Patient_Visit_Registered_Date_Time : string;
  Active_Status : string;
}.

Record SimplexPatientVisitHistoryResponse : Type := {
  status : bool;
  message : string;
  data : list SimplexPatientVisitHistoryItem;   (* Field(default_factory=list) *)
}.

(** [resp.model_copy(update={"message": m})]. *)
Definition model_copy_update_message (resp : SimplexPatientVisitHistoryResponse)
    (m : string) : SimplexPatientVisitHistoryResponse :=
  {| status := status resp; message := m; data := data resp |}.

(** *** Validation

    Modelled from the spec: [BaseModel.model_validate] is pydantic's
    (library code, absent from the repository); section 4.4 has it check
    the payload against the declared shape.  The field types and defaults
    are the repository's.  A [str] field takes a string only; a [bool]
    field takes, besides a boolean, pydantic's lax inputs (0 and 1, and the
    usual yes/no words in any case); a field with a default takes the
    default when its key is absent; keys that the model does not declare
    are ignored.  [None] stands for a [ValidationError]. *)

Definition lower_ascii (c : ascii) : ascii :=
  let n := nat_of_ascii c in
  if (Nat.leb 65 n && Nat.leb n 90)%bool then ascii_of_nat (n + 32) else c.

Fixpoint lower (s : string) : string :=
  match s with
  | EmptyString => EmptyString
  | String c rest => String (lower_ascii c) (lower rest)
  end.

Definition string_in (s : string) (l : list string) : bool :=
  existsb (String.eqb s) l.

(** 1.0 as a binary64 float in canonical form. *)
Definition float_one : spec_float := S754_finite false 4503599627370496 (-52).

Definition validate_bool (v : json) : option bool :=
  match v with
  | JBool b => Some b
  | JInt 0 => Some false
  | JInt 1 => Some true
  | JFloat f =>
      if SFeqb f (S754_zero false) then Some false
      else if SFeqb f float_one then Some true
      else None
  | JStr s =>
      if string_in (lower s) ["0"; "off"; "f"; "false"; "n"; "no"] then Some false
      else if string_in (lower s) ["1"; "on"; "t"; "true"; "y"; "yes"] then Some true
      else None
  | _ => None
  end.

Definition validate_str (v : json) : option string :=
  match v with
  | JStr s => Some s
  | _ => None
  end.

(** [str | None]. *)
Definition validate_optional_str (v : json) : option (option string) :=
  match v with
  | JNull => Some None
  | JStr s => Some (Some s)
  | _ => None
  end.

(** A field without a default: its key must be there. *)
Definition required {A} (validate : json -> option A) (key : string)
    (d : list (string * json)) : option A :=
  match dict_get key d with
  | Some v => validate v
  | None => None
  end.

(** A field with a default: an absent key gives the default. *)
Definition defaulted {A} (validate : json -> option A) (default : A)
    (key : string) (d : list (string * json)) : option A :=
  match dict_get key d with
  | Some v => validate v
  | None => Some default
  end.

Fixpoint validate_each {A} (validate : json -> option A) (items : list json)
    : option (list A) :=
  match items with
  | [] => Some []
  | v :: rest =>
      match validate v, validate_each validate rest with
      | Some a, Some l => Some (a :: l)
      | _, _ => None
      end
  end.

Definition validate_list {A} (validate : json -> option A) (v : json)
    : option (list A) :=
  match v with
  | JList items => validate_each validate items
  | _ => None
  end.

Notation "x <-? c ;; k" := (match c with Some x => k | None => None end)
  (at level 100, c at next level, right associativity, only parsing).

Definition validate_item (v : json) : option SimplexPatientVisitHistoryItem :=
  match v with
  | JDict d =>
      f1 <-? required validate_str "Patient_Visit_Medical_Family_Social_History_Details_Serial_No" d ;;
      f2 <-? required validate_str "Patient_Basic_Details_Serial_No" d ;;
      f3 <-? required validate_str "Patient_Visit_Basic_Details_Serial_No" d ;;
      f4 <-? required validate_str "Past_MH" d ;;
      f5 <-? required validate_str "Is_Past_MH_a_Warning" d ;;
      f6 <-? required validate_str "Past_Surgical_MH" d ;;
      f7 <-? required validate_str "Is_Past_Surgical_MH_a_Warning" d ;;
      f8 <-? required validate_str "Other_Family_MH" d ;;
      f9 <-? required validate_str "Is_Other_Family_MH_a_Warning" d ;;
      f10 <-? required validate_str "Med_Fam_Social_History_Note" d ;;
      f11 <-? required validate_str "Is_Med_Fam_Social_History_Note_a_Warning" d ;;
      f12 <-? required validate_str "Permanent_MRN_No" d ;;
      f13 <-? required validate_str "Permanent_Visit_No" d ;;
      f14 <-? defaulted validate_optional_str None "Patient_Visit_Registration_Note" d ;;
      f15 <-? required validate_str "Patient_Visit_Registered_Date_Time" d ;;
      f16 <-? required validate_str "Active_Status" d ;;
      Some {| Patient_Visit_Medical_Family_Social_History_Details_Serial_No := f1;
              Patient_Basic_Details_Serial_No := f2;
              Patient_Visit_Basic_Details_Serial_No := f3;
              Past_MH := f4;
              Is_Past_MH_a_Warning := f5;
              Past_Surgical_MH := f6;
              Is_Past_Surgical_MH_a_Warning := f7;
              Other_Family_MH := f8;
              Is_Other_Family_MH_a_Warning := f9;
              Med_Fam_Social_History_Note := f10;
              Is_Med_Fam_Social_History_Note_a_Warning := f11;
              Permanent_MRN_No := f12;
              Permanent_Visit_No := f13;
              Patient_Visit_Registration_Note := f14;
              Patient_Visit_Registered_Date_Time := f15;
              Active_Status := f16 |}
  | _ => None
  end.

Definition validate_response (v : json)
    : option SimplexPatientVisitHistoryResponse :=
  match v with
  | JDict d =>
      st <-? required validate_bool "status" d ;;
      msg <-? required validate_str "message" d ;;
      items <-? defaulted (validate_list validate_item) [] "data" d ;;
      Some {| status := st; message := msg; data := items |}
  | _ => None
  end.

(** [SimplexPatientVisitHistoryResponse.model_validate(payload)]. *)
Definition model_validate (payload : json)
    : M SimplexPatientVisitHistoryResponse :=
  match validate_response payload with
  | Some r => ret r
  | None =>
      raise (Exc ValidationError
               "validation errors for SimplexPatientVisitHistoryResponse" None)
  end.

(** ** app/config.py *)

Module config.

(** The string settings of [SimplexConfig]; [timeout_seconds] only goes to
    the httpx client and is left out. *)
Record SimplexConfig : Type := {
  base_url : string;
  tenant_path : string;
  location_id : string;
  api_key : string;
}.

(** [SimplexConfig()] with nothing set in the environment. *)
Definition default_SimplexConfig : SimplexConfig :=
  {| base_url := "https://dxb5.simplexworld.com";
     tenant_path := "";
     location_id := "";
     api_key := "" |}.

End config.

(** ** Python strings and dates *)

Fixpoint char_in (c : ascii) (chars : string) : bool :=
  match chars with
  | EmptyString => false
  | String c' rest => Ascii.eqb c c' || char_in c rest
  end.

(** [s.lstrip(chars)]: drop the leading characters that are in [chars]. *)
Fixpoint lstrip (chars s : string) : string :=
  match s with
  | EmptyString => EmptyString
  | String c rest => if char_in c chars then lstrip chars rest else s
  end.

(** [s.rstrip(chars)]: drop the trailing characters that are in [chars]. *)
Fixpoint rstrip (chars s : string) : string :=
  match s with
  | EmptyString => EmptyString
  | String c rest =>
      match rstrip chars rest with
      | EmptyString => if char_in c chars then EmptyString else String c EmptyString
      | kept => String c kept
      end
  end.

(** [s.strip(chars)]. *)
Definition strip (chars s : string) : string := lstrip chars (rstrip chars s).

Fixpoint zeros (n : nat) : string :=
  match n with
  | O => EmptyString
  | S m => String "0" (zeros m)
  end.

(** [s.zfill(width)] for a string without a sign. *)
Definition zfill (width : nat) (s : string) : string :=
  zeros (width - String.length s) ++ s.

Module dt.

(** A [datetime.date]: the class keeps 1 <= year <= 9999 and a month and
    day that exist. *)
Record date : Type := {
  year : Z;
  month : Z;
  day : Z;
}.

(** [date.isoformat()]: YYYY-MM-DD. *)
Definition isoformat (d : date) : string :=
  zfill 4 (str_of_int (year d)) ++ "-" ++ zfill 2 (str_of_int (month d))
    ++ "-" ++ zfill 2 (str_of_int (day d)).

End dt.

(** ** The pydantic models of the appointments payload *)

Module appointments.

Record SimplexAppointmentInfo : Type := {
  doctor_name : string;
  doctor_id : string;
  doctor_speciality : string;
  appointment_type : string;
  appointment_start_date_time : string;
  appointmet_end_date_time : string;
  appointment_create_date_time : string;
  appointment_modification_date_time : string;
  appointment_id : string;
  appointment_status : string;
  CPT_code_service : string;
  ID_service : string;
  Description_service : string;
  appointment_note : option string;          (* str | None = None *)
  Appointment_taken_from : option string;    (* str | None = None *)
}.

Record SimplexAppointmentRecord : Type := {
  patient_id : string;
  Permanent_MRNo : string;
  Temporary_MRN_No : string;
  patient_first_name : string;
  patient_last_name : option string;         (* str | None = None *)
  mobile_number : string;
  mobile_country_code : option string;       (* str | None = None *)
  email_id : option string;                  (* str | None = None *)
  Source_of_Contact : option string;         (* str | None = None *)
  appointment : SimplexAppointmentInfo;
}.

Record SimplexAppointmentsResponse : Type := {
  error_count : Z;
  message : string;
  result_count : Z;
  data : list SimplexAppointmentRecord;      (* Field(default_factory=list) *)
}.

Definition validate_info (v : json) : option SimplexAppointmentInfo :=
  match v with
  | JDict d =>
      f1 <-? required validate_str "doctor_name" d ;;
      f2 <-? required validate_str "doctor_id" d ;;
      f3 <-? required validate_str "doctor_speciality" d ;;
      f4 <-? required validate_str "appointment_type" d ;;
      f5 <-? required validate_str "appointment_start_date_time" d ;;
      f6 <-? required validate_str "appointmet_end_date_time" d ;;
      f7 <-? required validate_str "appointment_create_date_time" d ;;
      f8 <-? required validate_str "appointment_modification_date_time" d ;;
      f9 <-? required validate_str "appointment_id" d ;;
      f10 <-? required validate_str "appointment_status" d ;;
      f11 <-? required validate_str "CPT_code_service" d ;;
      f12 <-? required validate_str "ID_service" d ;;
      f13 <-? required validate_str "Description_service" d ;;
      f14 <-? defaulted validate_optional_str None "appointment_note" d ;;
      f15 <-? defaulted validate_optional_str None "Appointment_taken_from" d ;;
      Some {| doctor_name := f1; doctor_id := f2; doctor_speciality := f3;
              appointment_type := f4; appointment_start_date_time := f5;
              appointmet_end_date_time := f6;
              appointment_create_date_time := f7;
              appointment_modification_date_time := f8;
              appointment_id := f9; appointment_status := f10;
              CPT_code_service := f11; ID_service := f12;
              Description_service := f13; appointment_note := f14;
              Appointment_taken_from := f15 |}
  | _ => None
  end.

Definition validate_record (v : json) : option SimplexAppointmentRecord :=
  match v with
  | JDict d =>
      f1 <-? required validate_str "patient_id" d ;;
      f2 <-? required validate_str "Permanent_MRNo" d ;;
      f3 <-? required validate_str "Temporary_MRN_No" d ;;
      f4 <-? required validate_str "patient_first_name" d ;;
      f5 <-? defaulted validate_optional_str None "patient_last_name" d ;;
      f6 <-? required validate_str "mobile_number" d ;;
      f7 <-? defaulted validate_optional_str None "mobile_country_code" d ;;
      f8 <-? defaulted validate_optional_str None "email_id" d ;;
      f9 <-? defaulted validate_optional_str None "Source_of_Contact" d ;;
      f10 <-? required validate_info "appointment" d ;;
      Some {| patient_id := f1; Permanent_MRNo := f2; Temporary_MRN_No := f3;
              patient_first_name := f4; patient_last_name := f5;
              mobile_number := f6; mobile_country_code := f7; email_id := f8;
              Source_of_Contact := f9; appointment := f10 |}
  | _ => None
  end.

(** The validation of the [int] fields is pydantic's and is taken as a
    parameter, [validate_int]: which inputs besides an integer it converts
    is left to the library. *)
Definition validate_response (validate_int : json -> option Z) (v : json)
    : option SimplexAppointmentsResponse :=
  match v with
  | JDict d =>
      f1 <-? required validate_int "error_count" d ;;
      f2 <-? required validate_str "message" d ;;
      f3 <-? required validate_int "result_count" d ;;
      f4 <-? defaulted (validate_list validate_record) [] "data" d ;;
      Some {| error_count := f1; message := f2; result_count := f3;
              data := f4 |}
  | _ => None
  end.

(** [SimplexAppointmentsResponse.model_validate(payload)]. *)
Definition model_validate (validate_int : json -> option Z) (payload : json)
    : M SimplexAppointmentsResponse :=
  match validate_response validate_int payload with
  | Some r => ret r
  | None =>
      raise (Exc ValidationError
               "validation errors for SimplexAppointmentsResponse" None)
  end.

End appointments.

(** ** app/services/simplex.py *)

Definition SIMPLEX_RETRY_ATTEMPTS : nat := 3.

Definition _log_retry_request (attempt_number : nat) (wait_seconds : Z)
    (exc : exception) : M unit :=
  log WARNING "Retrying Simplex request"
    [("attempt", str_of_int (Z.of_nat attempt_number));
     ("wait_seconds", str_of_int wait_seconds);
     ("last_error", str_of exc);
     ("error_type", class_name (type_of exc))].

Definition simplex_retry : retry_policy :=
  {| reraise := true;
     stop_after_attempt := SIMPLEX_RETRY_ATTEMPTS;
     wait := wait_exponential 2 120 2 0;
     retry_if_exception_type :=
       [SimplexNetworkError; SimplexServerError; SimplexRateLimitError];
     before_sleep := _log_retry_request |}.

Module SimplexService.

(** [await self._client.request(method, url, params=params, json=json)]:
    the next outcome of the environment; the request counts and takes
    its time whether it fails or not. *)
Definition client_request (env : environment) (method url : string)
    (params : list (string * string)) : M Response :=
  fun w =>
    let n := simplex_calls w in
    let w1 := {| simplex_calls := S n; llm_calls := llm_calls w;
                 llm_sent := llm_sent w; uuid_calls := uuid_calls w;
                 now_ns := now_ns w + Z.of_N (simplex_took env n);
                 slept := slept w; logged := logged w |} in
    match simplex_send env n with
    | TransportFailure timeout msg =>
        (Raised (Exc (if timeout then HttpxTimeoutException
                      else HttpxTransportError) msg None), w1)
    | Responded r => (Returned r, w1)
    | OtherFailure exc => (Raised exc, w1)
    end.

Definition _log_error_response (response : Response) : M unit :=
  match response_json response with
  | Returned _ =>
      log ERROR "simplex_error_response"
        [("status_code", str_of_int (status_code response)); ("body", "json")]
  | Raised _ =>
      log ERROR "simplex_error_response"
        [("status_code", str_of_int (status_code response));
         ("body", text response)]
  end.

(** The body of [_request], before the decorator: one request, classified. *)
Definition _request_wrapped (env : environment) (method url : string)
    (params : list (string * string)) : M json :=
  start_ts <- monotonic ;;
  response <-
    try_except_of [HttpxTimeoutException; HttpxTransportError]
      (client_request env method url params)
      (fun exc =>
         log WARNING "network_error" [("error", str_of exc)] ;;
         raise (Exc SimplexNetworkError "Network error during Simplex request"
                  (Some exc))) ;;
  if (codes.OK <=? status_code response)
     && (status_code response <? codes.MULTIPLE_CHOICES)
  then
    log INFO "success" [] ;;
    match response_json response with
    | Returned v => ret v
    | Raised exc =>
        log ERROR "invalid_json" [("error", str_of exc)] ;;
        raise (Exc SimplexClientError "Failed to parse JSON response" (Some exc))
    end
  else if status_code response =? codes.UNAUTHORIZED then
    _log_error_response response ;;
    raise (Exc SimplexAuthError "Unauthorized: invalid Simplex API token" None)
  else if status_code response =? codes.NOT_FOUND then
    _log_error_response response ;;
    raise (Exc SimplexNotFoundError "Resource not found in Simplex" None)
  else if status_code response =? codes.TOO_MANY_REQUESTS then
    _log_error_response response ;;
    raise (Exc SimplexRateLimitError "Rate limit exceeded" None)
  else if (codes.BAD_REQUEST <=? status_code response)
          && (status_code response <? codes.INTERNAL_SERVER_ERROR)
  then
    _log_error_response response ;;
    raise (Exc SimplexClientError
             ("Client error from Simplex: " ++ str_of_int (status_code response))
             None)
  else if codes.INTERNAL_SERVER_ERROR <=? status_code response then
    _log_error_response response ;;
    raise (Exc SimplexServerError
             ("Server error from Simplex: " ++ str_of_int (status_code response))
             None)
  else
    _log_error_response response ;;
    raise (Exc SimplexClientError
             ("Unexpected status from Simplex: " ++ str_of_int (status_code response))
             None).

(** [@simplex_retry async def _request(...)]. *)
Definition _request (env : environment) (method url : string)
    (params : list (string * string)) : M json :=
  retrying simplex_retry (_request_wrapped env method url params).

Definition get_patient_visit_history (env : environment)
    (permanent_mrn_no permanent_visit_no : string)
    : M SimplexPatientVisitHistoryResponse :=
  let params := [("permanent_mrn_no", permanent_mrn_no);
                 ("permanent_visit_no", permanent_visit_no)] in
  log INFO "Fetching patient visit history from Simplex v2"
    [("endpoint", "get-patient-visit-history")] ;;
  payload <- _request env "GET" "/api/v2/patient-visit-histories" params ;;
  model_validate payload.

Definition _build_api_base_url (config : config.SimplexConfig) : string :=
  rstrip "/" (config.base_url config) ++ "/"
    ++ strip "/" (config.tenant_path config) ++ "/api".

Definition _default_headers : list (string * string) :=
  [("Accept", "application/json");
   ("User-Agent", "yma-anonymizer/1.0 (+https://reforma.health)")].

Definition appointments_by_date (validate_int : json -> option Z)
    (env : environment) (config : config.SimplexConfig) (date : dt.date)
    : M appointments.SimplexAppointmentsResponse :=
  let params := [("location_id", config.location_id config);
                 ("api_key", config.api_key config);
                 ("date", dt.isoformat date)] in
  log INFO "Fetching appointments from Simplex"
    [("endpoint", "appointments-by-date"); ("date", dt.isoformat date)] ;;
  payload <- _request env "GET" "/appointments-by-date" params ;;
  result <- appointments.model_validate validate_int payload ;;
  (if negb (appointments.error_count result =? 0) then
     log WARNING "Simplex responded with non-zero error_count"
       [("endpoint", "appointments-by-date"); ("date", dt.isoformat date);
        ("error_count", str_of_int (appointments.error_count result));
        ("message", appointments.message result)]
   else ret tt) ;;
  log INFO "Fetched appointments from Simplex"
    [("endpoint", "appointments-by-date"); ("date", dt.isoformat date);
     ("result_count", str_of_int (appointments.result_count result))] ;;
  ret result.

End SimplexService.

(** ** app/services/llm.py *)

Definition RETRY_ATTEMPTS_COUNT : nat := 3.

Definition _log_retry (attempt_number : nat) (wait_seconds : Z)
    (exc : exception) : M unit :=
  log WARNING "Retrying OpenAI call"
    [("attempt", str_of_int (Z.of_nat attempt_number));
     ("wait_seconds", str_of_int wait_seconds);
     ("last_error", str_of exc);
     ("error_type", class_name (type_of exc));
     ("endpoint", "/responses")].

Definition openai_retry : retry_policy :=
  {| reraise := true;
     stop_after_attempt := RETRY_ATTEMPTS_COUNT;
     wait := wait_exponential 2 120 2 0;
     retry_if_exception_type :=
       [RateLimitError; APIError; APIConnectionError; APITimeoutError; TimeoutError];
     before_sleep := _log_retry |}.

Module LLMService.

(** [await self.client.chat.completions.create(...)]: the next outcome of
    the environment.  The temperature and the extra headers travel with
    the request; nothing reads them back. *)
Definition create (env : environment) (request : chat_request)
    : M ChatCompletion :=
  fun w =>
    let n := llm_calls w in
    (llm_create env n,
     {| simplex_calls := simplex_calls w; llm_calls := S n;
        llm_sent := llm_sent w ++ [request]; uuid_calls := uuid_calls w;
        now_ns := now_ns w + Z.of_N (llm_took env n);
        slept := slept w; logged := logged w |}).

Definition _log_response (response : ChatCompletion) (start_time : Z)
    : M unit :=
  t <- monotonic ;;
  match usage response with
  | None =>
      log WARNING "No usage data in response; skipping cost calculation"
        [("model", model response)]
  | Some u =>
      log INFO "Chat completion completed"
        [("model", model response);
         ("prompt_tokens", str_of_int (prompt_tokens u));
         ("completion_tokens", str_of_int (completion_tokens u));
         ("total_tokens", str_of_int (total_tokens u))]
  end.

(** [chat_completion] carries no decorator in the source: [openai_retry]
    is defined above it and applied nowhere. *)
Definition chat_completion (env : environment) (prompt : string)
    (system_prompt : option string) (model : option string)
    : M (option string) :=
  start_time <- monotonic ;;
  let model := match model with
               | None => config_model env
               | Some m => m
               end in
  let messages := [("user", prompt)] in
  let messages := match system_prompt with
                  | Some (String c rest) => ("system", String c rest) :: messages
                  | _ => messages
                  end in
  log INFO "Starting structured generation" [("model", model)] ;;
  response <-
    try_except (create env (ChatRequest model messages))
      (fun e =>
         if isinstance e [RateLimitError; APIError; APIConnectionError;
                          APITimeoutError; TimeoutError]
         then log ERROR "Chat completion attempt failed" [("error", str_of e)] ;;
              raise e
         else log ERROR "Chat completion failed" [("error", str_of e)] ;;
              raise e) ;;
  _log_response response start_time ;;
  match choices response with
  | [] => raise (Exc IndexError "list index out of range" None)
  | first :: _ => ret (message_content first)
  end.

Definition anonymize (env : environment) (text : string) : M (option string) :=
  chat_completion env text (Some (ANONYMIZE_PROMPT env)) None.

End LLMService.

(** ** app/models.py *)

Module models.

(** [elapsed_s] is a float rounded to two decimals; it is kept as the
    number of hundredths of a second. *)
Record AnonymizationMeta : Type := {
  correlation_id : string;
  elapsed_s : Z;
}.

Record AnonymizationRequest : Type := { data : string }.

Record AnonymizationResponse : Type := {
  anonymized : string;
  meta : AnonymizationMeta;
}.

End models.

(** ** app/main.py *)

Module status.
Definition HTTP_200_OK : Z := 200.
Definition HTTP_500_INTERNAL_SERVER_ERROR : Z := 500.
Definition HTTP_502_BAD_GATEWAY : Z := 502.
End status.

(** [round(x, 2)] of a duration given in nanoseconds, in hundredths of a
    second; a tie goes to the even neighbour. *)
Definition round2 (duration_ns : Z) : Z :=
  let q := duration_ns / 10000000 in
  let r := duration_ns mod 10000000 in
  if 2 * r <? 10000000 then q
  else if 10000000 <? 2 * r then q + 1
  else if Z.even q then q else q + 1.

(** The status FastAPI answers with: 200 for a returned model, the code of
    an [HTTPException], 500 for any other exception. *)
Definition response_status {A} (r : outcome A) : Z :=
  match r with
  | Returned _ => status.HTTP_200_OK
  | Raised (HTTPExc code _ _) => code
  | Raised _ => status.HTTP_500_INTERNAL_SERVER_ERROR
  end.

Module main.

(** [str(uuid.uuid4())]. *)
Definition new_uuid (env : environment) : M string :=
  fun w =>
    (Returned (uuid4 env (uuid_calls w)),
     {| simplex_calls := simplex_calls w; llm_calls := llm_calls w;
        llm_sent := llm_sent w; uuid_calls := S (uuid_calls w);
        now_ns := now_ns w; slept := slept w; logged := logged w |}).

(** POST /anonymize *)
Definition anonymize (env : environment) (request : models.AnonymizationRequest)
    : M models.AnonymizationResponse :=
  corr_id <- new_uuid env ;;
  start_time <- monotonic ;;
  anonymized <-
    try_except (LLMService.anonymize env (models.data request))
      (fun e =>
         log ERROR "Anonymization failed"
           [("correlation_id", corr_id); ("error", str_of e)] ;;
         raise (HTTPExc status.HTTP_500_INTERNAL_SERVER_ERROR (str_of e) (Some e))) ;;
  match anonymized with
  | None =>
      log ERROR "No anonymized data returned" [("correlation_id", corr_id)] ;;
      raise (HTTPExc status.HTTP_500_INTERNAL_SERVER_ERROR
               "No anonymized data returned" None)
  | Some anonymized =>
      log INFO "Anonymized data" [("correlation_id", corr_id)] ;;
      t <- monotonic ;;
      let elapsed_s := round2 (t - start_time) in
      log INFO "Anonymization completed"
        [("correlation_id", corr_id); ("elapsed_s", str_of_int elapsed_s)] ;;
      ret {| models.anonymized := anonymized;
             models.meta := {| models.correlation_id := corr_id;
                               models.elapsed_s := elapsed_s |} |}
  end.

(** GET /ehr/patient-visit-histories *)
Definition patient_visit_histories (env : environment)
    (permanent_mrn_no permanent_visit_no : string)
    : M SimplexPatientVisitHistoryResponse :=
  resp <-
    try_except
      (SimplexService.get_patient_visit_history env permanent_mrn_no
         permanent_visit_no)
      (fun e =>
         log ERROR "Simplex patient visit history fetch failed"
           [("error", str_of e)] ;;
         raise (HTTPExc status.HTTP_502_BAD_GATEWAY
                  "Failed to fetch patient visit history" (Some e))) ;;
  anonymized_message <-
    try_except (LLMService.anonymize env (message resp))
      (fun e =>
         log ERROR "Message anonymization failed" [("error", str_of e)] ;;
         ret None) ;;
  let anonymized_message := match anonymized_message with
                            | None => message resp
                            | Some m => m
                            end in
  ret (model_copy_update_message resp anonymized_message).

End main.

(** ** Scripted environments

    Closed environments for the concrete runs below: each upstream answers
    from a script, then keeps giving its last line. *)

Definition initial_world : world :=
  {| simplex_calls := 0; llm_calls := 0; llm_sent := []; uuid_calls := 0;
     now_ns := 0; slept := []; logged := [] |}.

Definition script {A} (outcomes : list A) (otherwise : A) (n : nat) : A :=
  nth n outcomes otherwise.

Definition http (code : Z) (body : outcome json) : sent :=
  Responded {| status_code := code; response_json := body; text := "" |}.

Definition not_json : outcome json :=
  Raised (Exc JSONDecodeError "Expecting value: line 1 column 1 (char 0)" None).

Definition completion (contents : list (option string)) : ChatCompletion :=
  {| choices := map (fun c => {| message_content := c |}) contents;
     usage := Some {| prompt_tokens := 40; completion_tokens := 8;
                      total_tokens := 48 |};
     model := "anonymizer-1" |}.

Definition scripted (simplex : nat -> sent)
    (llm : nat -> outcome ChatCompletion) : environment :=
  {| simplex_send := simplex;
     simplex_took := fun _ => 25000000%N;
     llm_create := llm;
     llm_took := fun _ => 1234567890%N;
     uuid4 := fun n => "00000000-0000-4000-8000-00000000000" ++ str_of_int (Z.of_nat n);
     ANONYMIZE_PROMPT := "You are a medical data anonymization specialist.";
     config_model := "anonymizer-1" |}.

Definition api_timeout : exception := Exc APITimeoutError "Request timed out." None.

(** The wait that precedes attempt [k]: it is computed when attempt [k-1]
    has failed, from that attempt's number. *)
Definition wait_before_attempt (p : retry_policy) (k : nat) : Z :=
  wait p (k - 1)%nat.

(** A world in which [i] Simplex requests have been sent and nothing else
    has happened. *)
Definition at_call (i : nat) : world :=
  {| simplex_calls := i; llm_calls := 0; llm_sent := []; uuid_calls := 0;
     now_ns := 0; slept := []; logged := [] |}.

(** What the request numbered [i] (from 0) ends in, once classified: the
    outcome of the undecorated [_request] when [i] requests went before. *)
Definition attempt_outcome (env : environment) (method url : string)
    (params : list (string * string)) (i : nat) : outcome json :=
  fst (SimplexService._request_wrapped env method url params (at_call i)).

(** The predicate [simplex_retry] retries on. *)
Definition retryable (e : exception) : bool :=
  isinstance e (retry_if_exception_type simplex_retry).

(** [r] is a raise of an exception of class [c], exactly. *)
Definition raises {A} (r : outcome A) (c : exn_class) : Prop :=
  exists msg cause, r = Raised (Exc c msg cause).

Definition unused_simplex : nat -> sent :=
  fun _ => TransportFailure false "not called".

Definition unused_llm : nat -> outcome ChatCompletion :=
  fun _ => Raised (Exc (OtherError "RuntimeError") "not called" None).

(** The model API times out once, then answers. *)
Definition env_timeout_once : environment :=
  scripted unused_simplex
    (script [Raised api_timeout]
       (Returned (completion [Some "Patient_001 note"]))).

(** The model API answers with an empty list of choices. *)
Definition env_no_choices : environment :=
  scripted unused_simplex (fun _ => Returned (completion [])).

(** The model API answers with one choice. *)
Definition env_anonymized : environment :=
  scripted unused_simplex
    (fun _ => Returned (completion [Some "Patient_001 reports headache"])).

Definition headache_payload : json :=
  JDict [("status", JBool true);
         ("message", JStr "Patient reports headache");
         ("data", JList [])].


(** A payload without its [message] key. *)
Definition payload_no_message : json :=
  JDict [("status", JBool true); ("data", JList [])].

Definition env_headache : environment :=
  scripted (fun _ => http 200 (Returned headache_payload))
    (fun _ => Returned (completion [Some "Patient_001 reports headache"])).

(** The fetch answers; the model API answers 500 at every call. *)
Definition env_headache_llm_down : environment :=
  scripted (fun _ => http 200 (Returned headache_payload))
    (fun _ => Raised (Exc APIStatusError "Internal Server Error" None)).


Definition env_no_message : environment :=
  scripted (fun _ => http 200 (Returned payload_no_message)) unused_llm.

Definition env_not_found : environment :=
  scripted (fun _ => http 404 not_json) unused_llm.

(** [httpx.DecodingError], as the client raises it on a body that does not
    decompress: it derives from [httpx.RequestError], not from
    [httpx.TransportError]. *)
Definition decoding_error : exception :=
  Exc (OtherError "DecodingError")
    "Error -3 while decompressing data: incorrect header check" None.

(** The hospital API answers with a body that the client cannot decode. *)
Definition env_decoding_error : environment :=
  scripted (fun _ => OtherFailure decoding_error) unused_llm.



(** A timeout, then a 503, then 429 for ever. *)
Definition env_flaky : environment :=
  scripted
    (script [TransportFailure true "timed out"; http 503 not_json]
       (http 429 (Returned JNull)))
    unused_llm.

Definition visit_history_params (permanent_mrn_no permanent_visit_no : string)
    : list (string * string) :=
  [("permanent_mrn_no", permanent_mrn_no);
   ("permanent_visit_no", permanent_visit_no)].






(** How many entries of a log carry the event [event]. *)
Definition count_event (event : string) (l : list log_entry) : nat :=
  List.length (filter (fun entry => String.eqb (log_event entry) event) l).

(** The world in which the attempt after attempt [k] starts: the retry is
    logged, then the wait is slept. *)
Definition after_pause (p : retry_policy) (k : nat) (e : exception)
    (w : world) : world :=
  snd (sleep (wait p k) (snd (before_sleep p k (wait p k) e w))).

(** [n] slashes. *)
Fixpoint slashes (n : nat) : string :=
  match n with
  | O => EmptyString
  | S m => String "/" (slashes m)
  end.

(** An [int] validator that takes integers only, for the concrete runs. *)
Definition validate_int_strict (v : json) : option Z :=
  match v with
  | JInt n => Some n
  | _ => None
  end.

(** The hospital API answers 200 with an error count of 3 in the body. *)
Definition appointments_error_payload : json :=
  JDict [("error_count", JInt 3);
         ("message", JStr "partial failure");
         ("result_count", JInt 0)].

Definition env_appointments_errors : environment :=
  scripted (fun _ => http 200 (Returned appointments_error_payload)) unused_llm.

(** The fetch times out once, then answers. *)
Definition env_recovers : environment :=
  scripted
    (script [TransportFailure true "timed out"]
       (http 200 (Returned headache_payload)))
    (fun _ => Returned (completion [Some "Patient_001 reports headache"])).

(** ** Tactics *)

(** Unfold one request down to the monad's operations. *)
Ltac run_request :=
  unfold SimplexService._request_wrapped, SimplexService.client_request,
    SimplexService._log_error_response, try_except_of, bind, ret, raise,
    monotonic, log, isinstance, codes.OK, codes.MULTIPLE_CHOICES,
    codes.BAD_REQUEST, codes.UNAUTHORIZED, codes.NOT_FOUND,
    codes.TOO_MANY_REQUESTS, codes.INTERNAL_SERVER_ERROR in *.

(** Split on the integer tests in the goal. *)
Ltac decide_tests :=
  repeat match goal with
         | |- context [?a <=? ?b] => destruct (Z.leb_spec a b); simpl
         | |- context [?a <? ?b] => destruct (Z.ltb_spec a b); simpl
         | |- context [?a =? ?b] => destruct (Z.eqb_spec a b); simpl
         end.


(** * Properties *)

(** ** The retry loop *)

Section RetryingFacts.
Variable A : Type.
Variable p : retry_policy.
Variable fn : M A.

(** One turn of the loop, as the library runs it. *)
Lemma retry_from_step (attempt_number : nat) (w : world) :
  retry_from p fn attempt_number w =
  match fn w with
  | (Returned a, w1) => (Returned a, w1)
  | (Raised e, w1) =>
      if isinstance e (retry_if_exception_type p) then
        if (stop_after_attempt p <=? attempt_number)%nat then
          if reraise p then (Raised e, w1)
          else (Raised (Exc RetryError "RetryError" (Some e)), w1)
        else
          let seconds := wait p attempt_number in
          retry_from p fn (S attempt_number)
            (snd (sleep seconds
                    (snd (before_sleep p attempt_number seconds e w1))))
      else (Raised e, w1)
  end.
Proof.
  rewrite retry_from_unfold_eq. unfold retry_from_unfold.
  destruct (fn w) as [[a | e] w1]; simpl; [reflexivity |].
  destruct (isinstance e (retry_if_exception_type p)); simpl; [| reflexivity].
  destruct (le_dec (stop_after_attempt p) attempt_number) as [Hle | Hgt]; simpl.
  - apply Nat.leb_le in Hle. rewrite Hle. reflexivity.
  - apply Nat.leb_nle in Hgt. rewrite Hgt. reflexivity.
Qed.
End RetryingFacts.

(** ** Backoff *)

Lemma wait_exponential_capped (multiplier max exp_base min : Z) (k : nat) :
  0 <= max -> min <= max ->
  0 <= wait_exponential multiplier max exp_base min k <= max.
Proof. intros Hmax Hmin. unfold wait_exponential. lia. Qed.

(** C3, as the claim has it, fails: under the schedule of both call sites
    (multiplier 2, base 2) the wait before attempt 2 is not 4 seconds and
    the wait before attempt 3 is not 8 seconds. *)
Lemma backoff_4s_8s_refuted :
  ~ (wait_before_attempt simplex_retry 2 = 4 /\
     wait_before_attempt simplex_retry 3 = 8) /\
  ~ (wait_before_attempt openai_retry 2 = 4 /\
     wait_before_attempt openai_retry 3 = 8).
Proof. split; intros [H _]; vm_compute in H; discriminate H. Qed.

(** C3, amended: for the schedule configured at both call sites, the wait
    before attempt 2 is 2 seconds, the wait before attempt 3 is 4 seconds,
    and after no attempt does the computed wait exceed 120 seconds. *)
Theorem backoff_schedule :
  (wait_before_attempt simplex_retry 2 = 2 /\
   wait_before_attempt simplex_retry 3 = 4 /\
   forall k, 0 <= wait simplex_retry k <= 120) /\
  (wait_before_attempt openai_retry 2 = 2 /\
   wait_before_attempt openai_retry 3 = 4 /\
   forall k, 0 <= wait openai_retry k <= 120).
Proof.
  split; (split; [reflexivity | split; [reflexivity |]]);
    intros k; apply wait_exponential_capped; lia.
Qed.

(** ** Classification of one request *)

(** The outcome of the undecorated [_request], read off the answer to the
    request it sends. *)
Lemma request_wrapped_result env method url params w :
  fst (SimplexService._request_wrapped env method url params w) =
  match simplex_send env (simplex_calls w) with
  | TransportFailure timeout msg =>
      Raised (Exc SimplexNetworkError "Network error during Simplex request"
                (Some (Exc (if timeout then HttpxTimeoutException
                            else HttpxTransportError) msg None)))
  | Responded resp =>
      let code := status_code resp in
      if (200 <=? code) && (code <? 300) then
        match response_json resp with
        | Returned v => Returned v
        | Raised exc =>
            Raised (Exc SimplexClientError "Failed to parse JSON response" (Some exc))
        end
      else if code =? 401 then
        Raised (Exc SimplexAuthError "Unauthorized: invalid Simplex API token" None)
      else if code =? 404 then
        Raised (Exc SimplexNotFoundError "Resource not found in Simplex" None)
      else if code =? 429 then
        Raised (Exc SimplexRateLimitError "Rate limit exceeded" None)
      else if (400 <=? code) && (code <? 500) then
        Raised (Exc SimplexClientError
                  ("Client error from Simplex: " ++ str_of_int code) None)
      else if 500 <=? code then
        Raised (Exc SimplexServerError
                  ("Server error from Simplex: " ++ str_of_int code) None)
      else
        Raised (Exc SimplexClientError
                  ("Unexpected status from Simplex: " ++ str_of_int code) None)
  | OtherFailure exc =>
      if isinstance exc [HttpxTimeoutException; HttpxTransportError] then
        Raised (Exc SimplexNetworkError "Network error during Simplex request"
                  (Some exc))
      else Raised exc
  end.
Proof.
  run_request. cbv zeta.
  destruct (simplex_send env (simplex_calls w)) as [timeout msg | resp | exc].
  3:{ match goal with
      | |- context [if ?b then _ else _] => destruct b
      end; reflexivity. }
  - destruct timeout; reflexivity.
  - cbn [fst snd existsb].
    destruct ((200 <=? status_code resp) && (status_code resp <? 300)).
    { destruct (response_json resp); reflexivity. }
    destruct (status_code resp =? 401);
      [destruct (response_json resp); reflexivity |].
    destruct (status_code resp =? 404);
      [destruct (response_json resp); reflexivity |].
    destruct (status_code resp =? 429);
      [destruct (response_json resp); reflexivity |].
    destruct ((400 <=? status_code resp) && (status_code resp <? 500));
      [destruct (response_json resp); reflexivity |].
    destruct (500 <=? status_code resp);
      destruct (response_json resp); reflexivity.
Qed.

(** C4, as the claim has it, fails: the client raises
    [httpx.DecodingError], which is not of the transport family; the
    [except] clause of [_request] lets it through, so the call neither
    returns a value nor raises one of the six Simplex failures. *)
Lemma decoding_error_not_classified :
  let r := fst (SimplexService._request_wrapped env_decoding_error "GET"
                  "/api/v2/patient-visit-histories" [] initial_world) in
  simplex_send env_decoding_error 0 = OtherFailure decoding_error /\
  r = Raised decoding_error /\
  ~ ((exists v, r = Returned v) \/
     exists c, raises r c /\
       In c [SimplexNetworkError; SimplexAuthError; SimplexNotFoundError;
             SimplexRateLimitError; SimplexClientError; SimplexServerError]).
Proof.
  cbv zeta. split; [reflexivity |]. split; [reflexivity |].
  intros [[v Hv] | (c & (msg & cause & Hc) & Hin)].
  - discriminate Hv.
  - vm_compute in Hc. injection Hc as <- _ _. simpl in Hin.
    repeat (destruct Hin as [Hin | Hin]; [discriminate Hin |]).
    contradiction.
Qed.

(** C4, amended: the outcome of one outbound request that is a transport
    or timeout exception or a response is classified in order, first match
    winning.  A transport or timeout exception raises
    [SimplexNetworkError]; a status in [200,300) returns the decoded body,
    or raises [SimplexClientError] when the body does not decode; 401
    raises [SimplexAuthError], 404 [SimplexNotFoundError], 429
    [SimplexRateLimitError]; any other status in [400,500) raises
    [SimplexClientError]; a status of 500 or more raises
    [SimplexServerError]; any status left raises [SimplexClientError].  On
    these outcomes the classification is total: the call returns a value or
    raises one of the six Simplex failures.  An exception of the client
    that is not of the transport family is not classified: it reaches the
    caller as it is. *)
Theorem request_classification env method url params w :
  let r := fst (SimplexService._request_wrapped env method url params w) in
  let answer := simplex_send env (simplex_calls w) in
  (forall timeout msg, answer = TransportFailure timeout msg ->
     raises r SimplexNetworkError) /\
  (forall resp, answer = Responded resp ->
     let code := status_code resp in
     (200 <= code < 300 ->
        forall v, response_json resp = Returned v -> r = Returned v) /\
     (200 <= code < 300 ->
        forall exc, response_json resp = Raised exc ->
        raises r SimplexClientError) /\
     (code = 401 -> raises r SimplexAuthError) /\
     (code = 404 -> raises r SimplexNotFoundError) /\
     (code = 429 -> raises r SimplexRateLimitError) /\
     (400 <= code < 500 -> code <> 401 -> code <> 404 -> code <> 429 ->
        raises r SimplexClientError) /\
     (500 <= code -> raises r SimplexServerError) /\
     (code < 200 \/ 300 <= code < 400 -> raises r SimplexClientError)) /\
  (forall exc, answer = OtherFailure exc ->
     (isinstance exc [HttpxTimeoutException; HttpxTransportError] = true ->
        raises r SimplexNetworkError) /\
     (isinstance exc [HttpxTimeoutException; HttpxTransportError] = false ->
        r = Raised exc)) /\
  ((forall exc, answer = OtherFailure exc ->
      isinstance exc [HttpxTimeoutException; HttpxTransportError] = true) ->
   (exists v, r = Returned v) \/
   exists c, raises r c /\
     In c [SimplexNetworkError; SimplexAuthError; SimplexNotFoundError;
           SimplexRateLimitError; SimplexClientError; SimplexServerError]).
Proof.
  intros r answer. subst r answer. rewrite request_wrapped_result.
  destruct (simplex_send env (simplex_calls w)) as [timeout msg | resp | exc].
  - split; [| split; [| split]].
    + intros t m _. do 2 eexists; reflexivity.
    + intros resp H. discriminate H.
    + intros exc H. discriminate H.
    + intros _. right. exists SimplexNetworkError.
      split; [do 2 eexists; reflexivity | simpl; tauto].
  - split; [| split; [| split]].
    + intros t m H. discriminate H.
    + intros resp' H. injection H as <-. cbv zeta.
      repeat split; intros; decide_tests; try lia;
        repeat match goal with
               | H : response_json _ = _ |- _ => rewrite H
               end;
        try reflexivity; do 2 eexists; reflexivity.
    + intros exc H. discriminate H.
    + intros _. cbv zeta. decide_tests; try lia;
        try (destruct (response_json resp);
             [left; eexists; reflexivity |]);
        right; eexists; (split; [do 2 eexists; reflexivity | simpl; tauto]).
  - split; [| split; [| split]].
    + intros t m H. discriminate H.
    + intros resp H. discriminate H.
    + intros exc' H. injection H as <-.
      split; intros Hcls; rewrite Hcls;
        [do 2 eexists; reflexivity | reflexivity].
    + intros Hall. rewrite (Hall exc eq_refl). right.
      exists SimplexNetworkError.
      split; [do 2 eexists; reflexivity | simpl; tauto].
Qed.

Lemma request_classification_witness :
  raises (fst (SimplexService._request_wrapped env_not_found "GET"
                 "/api/v2/patient-visit-histories" [] initial_world))
    SimplexNotFoundError.
Proof.
  refine (proj1 (proj2 (proj2 (proj2
            (proj1 (proj2 (request_classification env_not_found "GET"
                             "/api/v2/patient-visit-histories" []
                             initial_world))
               {| status_code := 404; response_json := not_json; text := "" |}
               eq_refl)))) _).
  reflexivity.
Defined.

(** ** The retry budget of the Simplex client *)

Lemma request_wrapped_run env method url params w :
  exists w1,
    SimplexService._request_wrapped env method url params w =
      (attempt_outcome env method url params (simplex_calls w), w1) /\
    simplex_calls w1 = S (simplex_calls w) /\
    slept w1 = slept w /\
    llm_calls w1 = llm_calls w.
Proof.
  unfold attempt_outcome. run_request. simpl.
  destruct (simplex_send env (simplex_calls w))
    as [timeout msg | resp | exc]; simpl.
  - destruct timeout; simpl; eexists; repeat split; reflexivity.
  - destruct (response_json resp) as [v | exc]; decide_tests;
      eexists; repeat split; reflexivity.
  - match goal with
    | |- context [if ?b then _ else _] => destruct b
    end; simpl; eexists; repeat split; reflexivity.
Qed.

(** C2: [_request] under [simplex_retry].  Network, server and rate-limit
    failures are retryable, auth, not-found and client failures are not.
    The operation is invoked [n] times with 1 <= n <= 3; what the caller
    gets is the outcome of the last invocation as it is (no wrapping);
    every earlier invocation failed with a retryable failure; the loop
    stops before the third invocation only on a result or on a failure
    that is not retryable, so a first failure that is not retryable gives
    exactly one invocation; and the sleeps taken are 2 and 4 seconds. *)
Theorem request_retry_budget env method url params w :
  let run := SimplexService._request env method url params w in
  let r := fst run in
  let n := (simplex_calls (snd run) - simplex_calls w)%nat in
  let attempt k := attempt_outcome env method url params (simplex_calls w + k) in
  (forall msg cause,
     retryable (Exc SimplexNetworkError msg cause) = true /\
     retryable (Exc SimplexServerError msg cause) = true /\
     retryable (Exc SimplexRateLimitError msg cause) = true /\
     retryable (Exc SimplexAuthError msg cause) = false /\
     retryable (Exc SimplexNotFoundError msg cause) = false /\
     retryable (Exc SimplexClientError msg cause) = false) /\
  (1 <= n <= 3)%nat /\
  r = attempt (n - 1)%nat /\
  (forall k, (k < n - 1)%nat ->
     exists e, attempt k = Raised e /\ retryable e = true) /\
  ((n < 3)%nat -> forall e, r = Raised e -> retryable e = false) /\
  (forall e, attempt 0%nat = Raised e -> retryable e = false ->
     n = 1%nat /\ r = Raised e) /\
  slept (snd run) = (slept w ++ firstn (n - 1) [2; 4])%list.
Proof.
  intros run r n attempt.
  split; [intros msg cause; repeat split; reflexivity |].
  subst run r n attempt.
  unfold SimplexService._request, retrying.
  set (fn := SimplexService._request_wrapped env method url params).
  destruct (request_wrapped_run env method url params w)
    as (w1 & E1 & C1 & S1 & _).
  fold fn in E1. rewrite retry_from_step, E1.
  rewrite Nat.add_0_r.
  destruct (attempt_outcome env method url params (simplex_calls w))
    as [v1 | e1] eqn:A1.
  { simpl. rewrite C1, S1.
    replace (S (simplex_calls w) - simplex_calls w)%nat with 1%nat by lia.
    simpl. rewrite Nat.add_0_r, A1, app_nil_r.
    repeat split; try lia; try discriminate. }
  fold (retryable e1).
  destruct (retryable e1) eqn:R1.
  2:{ simpl. rewrite C1, S1.
      replace (S (simplex_calls w) - simplex_calls w)%nat with 1%nat by lia.
      simpl. rewrite Nat.add_0_r, A1, app_nil_r.
      repeat split; try lia; try congruence. }
  simpl (stop_after_attempt simplex_retry <=? 1)%nat. cbv iota zeta.
  set (w1' := snd (sleep _ _)).
  assert (C1' : simplex_calls w1' = S (simplex_calls w))
    by (subst w1'; simpl; exact C1).
  assert (S1' : slept w1' = (slept w ++ [2])%list)
    by (subst w1'; simpl; rewrite S1; reflexivity).
  clearbody w1'.
  destruct (request_wrapped_run env method url params w1')
    as (w2 & E2 & C2 & S2 & _).
  fold fn in E2. rewrite retry_from_step, E2. rewrite C1' in *.
  destruct (attempt_outcome env method url params (S (simplex_calls w)))
    as [v2 | e2] eqn:A2.
  { simpl. rewrite C2, S2, S1'.
    replace (S (S (simplex_calls w)) - simplex_calls w)%nat with 2%nat by lia.
    simpl. replace (simplex_calls w + 1)%nat with (S (simplex_calls w)) by lia.
    rewrite A2.
    repeat split; try lia; try discriminate; try congruence.
    intros k Hk. assert (k = 0)%nat by lia. subst k.
    rewrite Nat.add_0_r. exists e1. split; assumption. }
  fold (retryable e2).
  destruct (retryable e2) eqn:R2.
  2:{ simpl. rewrite C2, S2, S1'.
      replace (S (S (simplex_calls w)) - simplex_calls w)%nat with 2%nat by lia.
      simpl. replace (simplex_calls w + 1)%nat with (S (simplex_calls w)) by lia.
      rewrite A2.
      repeat split; try lia; try congruence.
      intros k Hk. assert (k = 0)%nat by lia. subst k.
      rewrite Nat.add_0_r. exists e1. split; assumption. }
  simpl (stop_after_attempt simplex_retry <=? 2)%nat. cbv iota zeta.
  set (w2' := snd (sleep _ _)).
  assert (C2' : simplex_calls w2' = S (S (simplex_calls w)))
    by (subst w2'; simpl; exact C2).
  assert (S2' : slept w2' = ((slept w ++ [2]) ++ [4])%list)
    by (subst w2'; simpl; rewrite S2, S1'; reflexivity).
  clearbody w2'.
  destruct (request_wrapped_run env method url params w2')
    as (w3 & E3 & C3 & S3 & _).
  fold fn in E3. rewrite retry_from_step, E3. rewrite C2' in *.
  assert (Hlast :
    match attempt_outcome env method url params (S (S (simplex_calls w))) with
    | Returned a => (Returned a, w3)
    | Raised e =>
        if isinstance e (retry_if_exception_type simplex_retry) then
          if (stop_after_attempt simplex_retry <=? 3)%nat then
            if reraise simplex_retry then (Raised e, w3)
            else (Raised (Exc RetryError "RetryError" (Some e)), w3)
          else
            let seconds := wait simplex_retry 3 in
            retry_from simplex_retry fn 4
              (snd (sleep seconds
                      (snd (before_sleep simplex_retry 3 seconds e w3))))
        else (Raised e, w3)
    end = (attempt_outcome env method url params (S (S (simplex_calls w))), w3)).
  { destruct (attempt_outcome env method url params (S (S (simplex_calls w))))
      as [v3 | e3]; [reflexivity |].
    simpl (stop_after_attempt simplex_retry <=? 3)%nat.
    simpl (reraise simplex_retry).
    destruct (isinstance e3 _); reflexivity. }
  rewrite Hlast. simpl. rewrite C3, S3, S2'.
  replace (S (S (S (simplex_calls w))) - simplex_calls w)%nat with 3%nat by lia.
  simpl. replace (simplex_calls w + 2)%nat with (S (S (simplex_calls w))) by lia.
  rewrite <- app_assoc. simpl.
  repeat split; try lia; try congruence.
  intros k Hk. destruct k as [| [| k]]; try lia.
  - rewrite Nat.add_0_r. exists e1. split; assumption.
  - replace (simplex_calls w + 1)%nat with (S (simplex_calls w)) by lia.
    exists e2. split; assumption.
Qed.

Lemma request_retry_budget_witness :
  (simplex_calls (snd (SimplexService._request env_not_found "GET"
                         "/api/v2/patient-visit-histories" [] initial_world))
     - 0 = 1)%nat /\
  fst (SimplexService._request env_not_found "GET"
         "/api/v2/patient-visit-histories" [] initial_world)
    = Raised (Exc SimplexNotFoundError "Resource not found in Simplex" None).
Proof.
  refine (proj1 (proj2 (proj2 (proj2 (proj2 (proj2
            (request_retry_budget env_not_found "GET"
               "/api/v2/patient-visit-histories" [] initial_world))))))
            (Exc SimplexNotFoundError "Resource not found in Simplex" None)
            _ _); reflexivity.
Defined.

(** ** The text-anonymization client *)

Lemma chat_completion_run env prompt system_prompt model_name w :
  exists w1,
    LLMService.chat_completion env prompt system_prompt model_name w =
      (match llm_create env (llm_calls w) with
       | Raised e => Raised e
       | Returned response =>
           match choices response with
           | [] => Raised (Exc IndexError "list index out of range" None)
           | first :: _ => Returned (message_content first)
           end
       end, w1) /\
    llm_calls w1 = S (llm_calls w) /\
    simplex_calls w1 = simplex_calls w /\
    uuid_calls w1 = uuid_calls w /\
    slept w1 = slept w /\
    now_ns w <= now_ns w1.
Proof.
  unfold LLMService.chat_completion, LLMService.create, LLMService._log_response,
    try_except, bind, ret, raise, monotonic, log. simpl.
  destruct (llm_create env (llm_calls w)) as [response | e]; simpl.
  - destruct (usage response); simpl;
      destruct (choices response); simpl;
      eexists; repeat split; simpl; lia.
  - match goal with
    | |- context [if ?b then _ else _] => destruct b
    end; simpl; eexists; repeat split; simpl; lia.
Qed.

(** C1, at the failing input: the model API times out once and would
    answer the second call.  The timeout is one of the kinds
    [openai_retry] retries on, yet [anonymize] makes one call, does not
    sleep and raises the timeout; POST /anonymize answers 500 after that
    single timeout.  Had [openai_retry] been applied, the second attempt
    would have returned the text. *)
Theorem anonymize_not_retried :
  let run := LLMService.anonymize env_timeout_once "some note" initial_world in
  isinstance api_timeout (retry_if_exception_type openai_retry) = true /\
  fst run = Raised api_timeout /\
  llm_calls (snd run) = 1%nat /\
  slept (snd run) = [] /\
  fst (main.anonymize env_timeout_once {| models.data := "some note" |}
         initial_world)
    = Raised (HTTPExc 500 "Request timed out." (Some api_timeout)) /\
  fst (retrying openai_retry (LLMService.anonymize env_timeout_once "some note")
         initial_world)
    = Returned (Some "Patient_001 note").
Proof. vm_compute. repeat split; reflexivity. Qed.

(** [anonymize] calls the model API exactly once, whatever the call ends in. *)
Lemma anonymize_calls_once env text w :
  llm_calls (snd (LLMService.anonymize env text w)) = S (llm_calls w) /\
  slept (snd (LLMService.anonymize env text w)) = slept w.
Proof.
  unfold LLMService.anonymize.
  destruct (chat_completion_run env text (Some (ANONYMIZE_PROMPT env)) None w)
    as (w1 & E & C & _ & _ & S & _).
  rewrite E. simpl. split; assumption.
Qed.

(** C8, as the claim has it, fails: the model API answers with an empty
    list of choices and [anonymize] raises [IndexError]; it does not
    return none. *)
Lemma anonymize_empty_choices_raises :
  llm_create env_no_choices 0 = Returned (completion []) /\
  choices (completion []) = [] /\
  fst (LLMService.anonymize env_no_choices "some note" initial_world)
    = Raised (Exc IndexError "list index out of range" None) /\
  fst (LLMService.anonymize env_no_choices "some note" initial_world)
    <> Returned None.
Proof. vm_compute. repeat split; try reflexivity. discriminate. Qed.

(** C8, amended: for every successful response of the model API whose list
    of choices is not empty, [anonymize] returns the message content of
    the first choice, which is none when that content is absent; on an
    empty list of choices it raises [IndexError]. *)
Theorem anonymize_first_choice env text w response :
  llm_create env (llm_calls w) = Returned response ->
  fst (LLMService.anonymize env text w) =
    match choices response with
    | first :: _ => Returned (message_content first)
    | [] => Raised (Exc IndexError "list index out of range" None)
    end.
Proof.
  intros Hcreate. unfold LLMService.anonymize.
  destruct (chat_completion_run env text (Some (ANONYMIZE_PROMPT env)) None w)
    as (w1 & E & _).
  rewrite E, Hcreate. simpl. destruct (choices response); reflexivity.
Qed.

Lemma anonymize_first_choice_witness :
  fst (LLMService.anonymize env_anonymized "Patient reports headache"
         initial_world)
    = Returned (Some "Patient_001 reports headache").
Proof.
  exact (anonymize_first_choice env_anonymized "Patient reports headache"
           initial_world (response := completion [Some "Patient_001 reports headache"])
           eq_refl).
Defined.

(** ** The handlers *)

Lemma round2_nonneg (d : Z) : 0 <= d -> 0 <= round2 d.
Proof.
  intros Hd. unfold round2.
  assert (0 <= d / 10000000) by (apply Z.div_pos; lia).
  repeat match goal with
         | |- context [if ?b then _ else _] => destruct b
         end; lia.
Qed.


(** C6: POST /anonymize.  When the anonymization call raises, the handler
    logs "Anonymization failed" and answers 500 with the failure's text as
    detail; when the call returns none, it logs "No anonymized data
    returned" and answers 500 too; otherwise it answers 200 with the
    anonymized text, the correlation id drawn from [uuid4] for this
    request (the generator is advanced once, so the next request draws the
    next id) and an elapsed time that is not negative. *)
Theorem anonymize_handler_outcomes env request w :
  let run := main.anonymize env request w in
  let called := LLMService.anonymize env (models.data request)
                  (snd (main.new_uuid env w)) in
  uuid_calls (snd run) = S (uuid_calls w) /\
  match fst called with
  | Raised e =>
      fst run = Raised (HTTPExc 500 (str_of e) (Some e)) /\
      response_status (fst run) = 500 /\
      exists fields,
        last (logged (snd run)) (LogEntry INFO "" []) =
          LogEntry ERROR "Anonymization failed" fields
  | Returned None =>
      fst run = Raised (HTTPExc 500 "No anonymized data returned" None) /\
      response_status (fst run) = 500 /\
      exists fields,
        last (logged (snd run)) (LogEntry INFO "" []) =
          LogEntry ERROR "No anonymized data returned" fields
  | Returned (Some anonymized) =>
      response_status (fst run) = 200 /\
      exists elapsed,
        fst run =
          Returned {| models.anonymized := anonymized;
                      models.meta :=
                        {| models.correlation_id := uuid4 env (uuid_calls w);
                           models.elapsed_s := elapsed |} |} /\
        0 <= elapsed
  end.
Proof.
  intros run called. subst run called.
  unfold main.anonymize, main.new_uuid, LLMService.anonymize.
  unfold bind, try_except, monotonic, log, ret, raise.
  cbv beta iota. cbn [fst snd].
  set (w0 := {| simplex_calls := simplex_calls w; llm_calls := llm_calls w;
                llm_sent := llm_sent w; uuid_calls := S (uuid_calls w);
                now_ns := now_ns w; slept := slept w; logged := logged w |}).
  destruct (chat_completion_run env (models.data request)
              (Some (ANONYMIZE_PROMPT env)) None w0)
    as (w1 & E1 & _ & _ & U1 & _ & N1).
  rewrite E1. cbn [fst snd].
  destruct (llm_create env (llm_calls w0)) as [response | e]; cbn.
  - destruct (choices response) as [| first rest]; cbn.
    + rewrite U1. split; [reflexivity |]. split; [reflexivity |].
      split; [reflexivity |]. eexists. apply last_last.
    + destruct (message_content first) as [anonymized |]; cbn.
      * rewrite U1. split; [reflexivity |]. split; [reflexivity |].
        eexists. split; [reflexivity |]. apply round2_nonneg.
        subst w0. cbn in N1. lia.
      * rewrite U1. split; [reflexivity |]. split; [reflexivity |].
        split; [reflexivity |]. eexists. apply last_last.
  - rewrite U1. split; [reflexivity |]. split; [reflexivity |].
    split; [reflexivity |]. eexists. apply last_last.
Qed.

Lemma anonymize_handler_outcomes_witness :
  exists elapsed,
    fst (main.anonymize env_anonymized
           {| models.data := "Patient reports headache" |} initial_world) =
      Returned {| models.anonymized := "Patient_001 reports headache";
                  models.meta :=
                    {| models.correlation_id :=
                         "00000000-0000-4000-8000-000000000000";
                       models.elapsed_s := elapsed |} |} /\
    0 <= elapsed.
Proof.
  exact (proj2 (proj2 (anonymize_handler_outcomes env_anonymized
                         {| models.data := "Patient reports headache" |}
                         initial_world))).
Defined.

Lemma model_copy_same_message resp :
  model_copy_update_message resp (message resp) = resp.
Proof. destruct resp. reflexivity. Qed.

(** How GET /ehr/patient-visit-histories runs, from the outcome of the
    fetch and, when the fetch returned, of the anonymization call made in
    the world the fetch left. *)
Lemma patient_visit_histories_run env permanent_mrn_no permanent_visit_no w :
  let fetch := SimplexService.get_patient_visit_history env permanent_mrn_no
                 permanent_visit_no w in
  fst (main.patient_visit_histories env permanent_mrn_no permanent_visit_no w) =
    match fst fetch with
    | Raised e =>
        Raised (HTTPExc 502 "Failed to fetch patient visit history" (Some e))
    | Returned resp =>
        match fst (LLMService.anonymize env (message resp) (snd fetch)) with
        | Returned (Some m) => Returned (model_copy_update_message resp m)
        | _ => Returned (model_copy_update_message resp (message resp))
        end
    end.
Proof.
  intros fetch. subst fetch.
  unfold main.patient_visit_histories.
  unfold bind at 1. unfold try_except at 1.
  destruct (SimplexService.get_patient_visit_history env permanent_mrn_no
              permanent_visit_no w) as [[resp | e] w1]; cbn [fst snd].
  - unfold bind, try_except.
    destruct (LLMService.anonymize env (message resp) w1) as [[[m |] | e] w2];
      reflexivity.
  - reflexivity.
Qed.

(** C5: GET /ehr/patient-visit-histories.  A failure of the visit-history
    fetch, whatever it is, is answered with 502.  When the fetch returns,
    the answer is 200 in every case: with the anonymized message when the
    anonymization call returns one, and with the fetched response as it is,
    original message included, when that call raises or returns none. *)
Theorem visit_histories_failure_paths env permanent_mrn_no permanent_visit_no w :
  let fetch := SimplexService.get_patient_visit_history env permanent_mrn_no
                 permanent_visit_no w in
  let run := main.patient_visit_histories env permanent_mrn_no
               permanent_visit_no w in
  match fst fetch with
  | Raised e =>
      fst run =
        Raised (HTTPExc 502 "Failed to fetch patient visit history" (Some e)) /\
      response_status (fst run) = 502
  | Returned resp =>
      response_status (fst run) = 200 /\
      match fst (LLMService.anonymize env (message resp) (snd fetch)) with
      | Returned (Some m) =>
          fst run = Returned (model_copy_update_message resp m)
      | Returned None => fst run = Returned resp
      | Raised _ => fst run = Returned resp
      end
  end.
Proof.
  intros fetch run. subst run.
  rewrite (patient_visit_histories_run env permanent_mrn_no permanent_visit_no w).
  cbv zeta. fold fetch.
  destruct (fst fetch) as [resp | e].
  - destruct (fst (LLMService.anonymize env (message resp) (snd fetch)))
      as [[m |] | e]; rewrite ?model_copy_same_message; split; reflexivity.
  - split; reflexivity.
Qed.

Lemma visit_histories_failure_paths_witness :
  fst (main.patient_visit_histories env_headache_llm_down "MRN1" "V1"
         initial_world)
    = Returned {| status := true; message := "Patient reports headache";
                  data := [] |} /\
  response_status
    (fst (main.patient_visit_histories env_not_found "MRN1" "V1" initial_world))
    = 502.
Proof.
  split.
  - exact (proj2 (visit_histories_failure_paths env_headache_llm_down
                    "MRN1" "V1" initial_world)).
  - exact (proj2 (visit_histories_failure_paths env_not_found
                    "MRN1" "V1" initial_world)).
Defined.

(** C7: in a successful answer of GET /ehr/patient-visit-histories only
    the message may differ from the fetched, validated response: the status
    flag and the sequence of records are those of the fetch, whether the
    anonymization succeeded or not. *)
Theorem visit_histories_frame env permanent_mrn_no permanent_visit_no w out :
  fst (main.patient_visit_histories env permanent_mrn_no permanent_visit_no w)
    = Returned out ->
  exists resp,
    fst (SimplexService.get_patient_visit_history env permanent_mrn_no
           permanent_visit_no w) = Returned resp /\
    status out = status resp /\
    data out = data resp.
Proof.
  rewrite (patient_visit_histories_run env permanent_mrn_no permanent_visit_no w).
  cbv zeta.
  destruct (fst (SimplexService.get_patient_visit_history env permanent_mrn_no
                   permanent_visit_no w)) as [resp | e]; [| discriminate].
  intros H. exists resp. split; [reflexivity |].
  destruct (fst (LLMService.anonymize env (message resp) _)) as [[m |] | e];
    injection H as <-; split; reflexivity.
Qed.

Lemma visit_histories_frame_witness :
  exists resp,
    fst (SimplexService.get_patient_visit_history env_headache "MRN1" "V1"
           initial_world) = Returned resp /\
    status {| status := true; message := "Patient_001 reports headache";
              data := [] |} = status resp /\
    data {| status := true; message := "Patient_001 reports headache";
            data := [] |} = data resp.
Proof.
  exact (visit_histories_frame env_headache "MRN1" "V1" initial_world
           (out := {| status := true; message := "Patient_001 reports headache";
                      data := [] |}) eq_refl).
Defined.

(** ** Validation of the visit-history payload *)






(** ** The visit-history fetch *)

(** A first attempt that returns ends the loop: one request, no sleep. *)
Lemma request_first_returns env method url params w v :
  attempt_outcome env method url params (simplex_calls w) = Returned v ->
  fst (SimplexService._request env method url params w) = Returned v /\
  simplex_calls (snd (SimplexService._request env method url params w))
    = S (simplex_calls w) /\
  slept (snd (SimplexService._request env method url params w)) = slept w.
Proof.
  intros Hv. unfold SimplexService._request, retrying.
  destruct (request_wrapped_run env method url params w)
    as (w1 & E1 & C1 & S1 & _).
  rewrite retry_from_step, E1, Hv. cbn [fst snd]. repeat split; assumption.
Qed.

(** [get_patient_visit_history] is the fetch followed by the validation of
    what the fetch returned. *)
Lemma get_patient_visit_history_run env permanent_mrn_no permanent_visit_no w :
  let fetched :=
    SimplexService._request env "GET" "/api/v2/patient-visit-histories"
      (visit_history_params permanent_mrn_no permanent_visit_no)
      (snd (log INFO "Fetching patient visit history from Simplex v2"
              [("endpoint", "get-patient-visit-history")] w)) in
  SimplexService.get_patient_visit_history env permanent_mrn_no
    permanent_visit_no w =
  match fst fetched with
  | Raised e => (Raised e, snd fetched)
  | Returned payload =>
      match validate_response payload with
      | Some r => (Returned r, snd fetched)
      | None =>
          (Raised (Exc ValidationError
                     "validation errors for SimplexPatientVisitHistoryResponse"
                     None), snd fetched)
      end
  end.
Proof.
  intros fetched. subst fetched.
  unfold SimplexService.get_patient_visit_history, visit_history_params.
  unfold bind at 1. cbn [log fst snd]. unfold bind at 1.
  match goal with
  | |- context [SimplexService._request ?e ?m ?u ?ps ?w0] =>
      destruct (SimplexService._request e m u ps w0) as [[payload | e'] w1]
  end; cbn [fst snd]; [| reflexivity].
  unfold model_validate. destruct (validate_response payload); reflexivity.
Qed.




(** C10: the shape is validated outside the retry loop.  When the request
    is answered with a status in [200,300) and a body that decodes but
    does not validate, [get_patient_visit_history] has sent exactly one
    request and has not slept; what it raises is a [ValidationError], which
    is none of the six Simplex failures (it does not derive from
    [SimplexError]) and which the predicate of [simplex_retry] does not
    match. *)
Theorem shape_validation_outside_retry
    env permanent_mrn_no permanent_visit_no w resp payload :
  simplex_send env (simplex_calls w) = Responded resp ->
  200 <= status_code resp < 300 ->
  response_json resp = Returned payload ->
  validate_response payload = None ->
  let run := SimplexService.get_patient_visit_history env permanent_mrn_no
               permanent_visit_no w in
  exists e,
    fst run = Raised e /\
    type_of e = ValidationError /\
    simplex_calls (snd run) = S (simplex_calls w) /\
    slept (snd run) = slept w /\
    issubclass (type_of e) SimplexError = false /\
    (forall c,
       In c [SimplexNetworkError; SimplexAuthError; SimplexNotFoundError;
             SimplexRateLimitError; SimplexClientError; SimplexServerError] ->
       type_of e <> c) /\
    retryable e = false.
Proof.
  intros Hsend Hcode Hjson Hshape run. subst run.
  rewrite (get_patient_visit_history_run env permanent_mrn_no permanent_visit_no w).
  cbv zeta.
  match goal with
  | |- context [SimplexService._request ?e ?m ?u ?ps ?w0] =>
      destruct (request_first_returns e m u ps w0 (v := payload))
        as (Hfst & Hcalls & Hslept)
  end.
  { unfold attempt_outcome. rewrite request_wrapped_result.
    cbn [log snd simplex_calls at_call]. rewrite Hsend. cbv zeta.
    destruct (Z.leb_spec 200 (status_code resp)); [| lia].
    destruct (Z.ltb_spec (status_code resp) 300); [| lia].
    rewrite Hjson. reflexivity. }
  rewrite Hfst, Hshape. cbn [fst snd].
  eexists. split; [reflexivity |]. split; [reflexivity |].
  split; [exact Hcalls |]. split; [exact Hslept |].
  split; [reflexivity |]. split; [| reflexivity].
  intros c Hc. simpl in Hc.
  repeat (destruct Hc as [<- | Hc]; [discriminate |]). contradiction.
Qed.

Lemma shape_validation_outside_retry_witness :
  exists e,
    fst (SimplexService.get_patient_visit_history env_no_message "MRN1" "V1"
           initial_world) = Raised e /\
    type_of e = ValidationError /\
    simplex_calls (snd (SimplexService.get_patient_visit_history env_no_message
                          "MRN1" "V1" initial_world)) = 1%nat /\
    slept (snd (SimplexService.get_patient_visit_history env_no_message
                  "MRN1" "V1" initial_world)) = [] /\
    issubclass (type_of e) SimplexError = false /\
    (forall c,
       In c [SimplexNetworkError; SimplexAuthError; SimplexNotFoundError;
             SimplexRateLimitError; SimplexClientError; SimplexServerError] ->
       type_of e <> c) /\
    retryable e = false.
Proof.
  apply (shape_validation_outside_retry env_no_message "MRN1" "V1"
           initial_world
           (resp := {| status_code := 200;
                       response_json := Returned payload_no_message;
                       text := "" |})
           (payload := payload_no_message)).
  - reflexivity.
  - simpl. lia.
  - reflexivity.
  - reflexivity.
Defined.

(** ** Runs of the scenarios *)

(** A timeout, a 503 and a 429: three requests, sleeps of 2 and 4 seconds,
    and the failure of the third request reaches the caller. *)
Example request_three_attempts :
  let run := SimplexService._request env_flaky "GET"
               "/api/v2/patient-visit-histories" [] initial_world in
  fst run = Raised (Exc SimplexRateLimitError "Rate limit exceeded" None) /\
  simplex_calls (snd run) = 3%nat /\
  slept (snd run) = [2; 4].
Proof. vm_compute. repeat split; reflexivity. Qed.

(** The fetch returns the headache payload and the anonymization succeeds. *)
Example visit_history_anonymized :
  fst (main.patient_visit_histories env_headache "MRN1" "V1" initial_world)
    = Returned {| status := true; message := "Patient_001 reports headache";
                  data := [] |}.
Proof. vm_compute. reflexivity. Qed.

(** The fetch is answered 404: one request, no sleep, and a 502. *)
Example visit_history_not_found :
  let run := main.patient_visit_histories env_not_found "MRN1" "V1"
               initial_world in
  response_status (fst run) = 502 /\
  simplex_calls (snd run) = 1%nat /\
  slept (snd run) = [].
Proof. vm_compute. repeat split; reflexivity. Qed.


(** * Further properties *)

(** ** The retry loop, by induction on the attempts left *)

Section RetryingInduction.
Variable A : Type.
Variable p : retry_policy.
Variable fn : M A.

Section Related.
Variable R : world -> world -> Prop.
Hypothesis R_trans : forall a b c, R a b -> R b c -> R a c.
Hypothesis R_fn : forall w, R w (snd (fn w)).
Hypothesis R_pause : forall k e w, R w (after_pause p k e w).

(** A transitive relation that every attempt and every pause respects
    holds between the worlds before and after the whole loop. *)
Lemma retry_from_related (k : nat) (w : world) :
  R w (snd (retry_from p fn k w)).
Proof.
  remember (stop_after_attempt p - k)%nat as left eqn:Hleft.
  revert k w Hleft.
  induction left as [| left IH]; intros k w Hleft;
    rewrite retry_from_step; specialize (R_fn w);
    destruct (fn w) as [[a | e] w1]; cbn [fst snd] in *; try exact R_fn;
    destruct (isinstance e (retry_if_exception_type p)); try exact R_fn.
  - destruct (Nat.leb_spec (stop_after_attempt p) k); [| lia].
    destruct (reraise p); exact R_fn.
  - destruct (Nat.leb_spec (stop_after_attempt p) k); [lia |].
    cbv zeta. eapply R_trans; [exact R_fn |].
    eapply R_trans; [apply (R_pause k e w1) |].
    apply IH. lia.
Qed.
End Related.

Section Counted.
Variable calls : world -> nat.
Hypothesis fn_calls : forall w, calls (snd (fn w)) = S (calls w).
Hypothesis fn_slept : forall w, slept (snd (fn w)) = slept w.
Hypothesis pause_calls : forall k e w, calls (after_pause p k e w) = calls w.
Hypothesis pause_slept :
  forall k e w, slept (after_pause p k e w) = (slept w ++ [wait p k])%list.

(** When every attempt counts once and only the pauses sleep, the loop
    started at attempt [k] makes [n + 1] attempts with
    [n <= stop_after_attempt - k], and sleeps the waits of attempts
    [k], ..., [k + n - 1], in that order. *)
Lemma retry_from_counted (k : nat) (w : world) :
  exists n,
    (n <= stop_after_attempt p - k)%nat /\
    calls (snd (retry_from p fn k w)) = (calls w + S n)%nat /\
    slept (snd (retry_from p fn k w)) =
      (slept w ++ map (wait p) (seq k n))%list.
Proof.
  remember (stop_after_attempt p - k)%nat as left eqn:Hleft.
  revert k w Hleft.
  induction left as [| left IH]; intros k w Hleft;
    rewrite retry_from_step;
    pose proof (fn_calls w) as Hc; pose proof (fn_slept w) as Hs;
    destruct (fn w) as [[a | e] w1]; cbn [fst snd] in *.
  - exists 0%nat. cbn. rewrite app_nil_r. repeat split; [lia | lia | exact Hs].
  - assert (Hdone : exists n, (n <= 0)%nat /\ calls w1 = (calls w + S n)%nat /\
                      slept w1 = (slept w ++ map (wait p) (seq k n))%list).
    { exists 0%nat. cbn. rewrite app_nil_r. repeat split; [lia | lia | exact Hs]. }
    destruct (isinstance e (retry_if_exception_type p)); [| exact Hdone].
    destruct (Nat.leb_spec (stop_after_attempt p) k); [| lia].
    destruct (reraise p); exact Hdone.
  - exists 0%nat. cbn. rewrite app_nil_r. repeat split; [lia | lia | exact Hs].
  - assert (Hdone : exists n, (n <= S left)%nat /\ calls w1 = (calls w + S n)%nat /\
                      slept w1 = (slept w ++ map (wait p) (seq k n))%list).
    { exists 0%nat. cbn. rewrite app_nil_r. repeat split; [lia | lia | exact Hs]. }
    destruct (isinstance e (retry_if_exception_type p)); [| exact Hdone].
    destruct (Nat.leb_spec (stop_after_attempt p) k); [lia |].
    cbv zeta. fold (after_pause p k e w1).
    destruct (IH (S k) (after_pause p k e w1)) as (n & Hn & Hcalls & Hslept); [lia |].
    exists (S n). split; [lia |]. split.
    + rewrite Hcalls, pause_calls, Hc. lia.
    + rewrite Hslept, pause_slept, Hs, <- app_assoc. reflexivity.
Qed.
End Counted.
End RetryingInduction.


(** ** What one Simplex request leaves in the world *)

Lemma request_wrapped_world env method url params w :
  snd (SimplexService._request_wrapped env method url params w) =
  {| simplex_calls := S (simplex_calls w);
     llm_calls := llm_calls w;
     llm_sent := llm_sent w;
     uuid_calls := uuid_calls w;
     now_ns := now_ns w + Z.of_N (simplex_took env (simplex_calls w));
     slept := slept w;
     logged :=
       (logged w ++
        match simplex_send env (simplex_calls w) with
        | TransportFailure _ msg =>
            [LogEntry WARNING "network_error" [("error", msg)]]
        | Responded resp =>
            if (200 <=? status_code resp) && (status_code resp <? 300) then
              LogEntry INFO "success" [] ::
              match response_json resp with
              | Returned _ => []
              | Raised exc => [LogEntry ERROR "invalid_json" [("error", str_of exc)]]
              end
            else
              [LogEntry ERROR "simplex_error_response"
                 [("status_code", str_of_int (status_code resp));
                  ("body", match response_json resp with
                           | Returned _ => "json"
                           | Raised _ => text resp
                           end)]]
        | OtherFailure exc =>
            if isinstance exc [HttpxTimeoutException; HttpxTransportError]
            then [LogEntry WARNING "network_error" [("error", str_of exc)]]
            else []
        end)%list |}.
Proof.
  run_request. cbv zeta.
  destruct (simplex_send env (simplex_calls w)) as [timeout msg | resp | exc].
  3:{ match goal with
      | |- context [if ?b then _ else _] => destruct b
      end; cbn; rewrite ?app_nil_r; reflexivity. }
  - destruct timeout; reflexivity.
  - cbn [fst snd existsb].
    destruct ((200 <=? status_code resp) && (status_code resp <? 300)).
    { destruct (response_json resp); cbn; rewrite <- ?app_assoc; reflexivity. }
    destruct (status_code resp =? 401);
      [destruct (response_json resp); reflexivity |].
    destruct (status_code resp =? 404);
      [destruct (response_json resp); reflexivity |].
    destruct (status_code resp =? 429);
      [destruct (response_json resp); reflexivity |].
    destruct ((400 <=? status_code resp) && (status_code resp <? 500));
      [destruct (response_json resp); reflexivity |].
    destruct (500 <=? status_code resp);
      destruct (response_json resp); reflexivity.
Qed.

(** X4: what the undecorated [_request] logs.  A response outside
    [200,300) leaves exactly one entry, at ERROR, with the status code and,
    when the body does not decode, the raw text.  A response in [200,300)
    logs "success" before the body is decoded, so also when the body is
    then found invalid, which adds an "invalid_json" entry at ERROR.  A
    transport failure leaves one WARNING.  An exception of the client that
    is not of the transport family leaves no entry at all. *)
Theorem request_logging env method url params w :
  let w1 := snd (SimplexService._request_wrapped env method url params w) in
  match simplex_send env (simplex_calls w) with
  | TransportFailure _ msg =>
      logged w1 =
        (logged w ++ [LogEntry WARNING "network_error" [("error", msg)]])%list
  | Responded resp =>
      (status_code resp < 200 \/ 300 <= status_code resp ->
       exists body,
         logged w1 =
           (logged w ++
            [LogEntry ERROR "simplex_error_response"
               [("status_code", str_of_int (status_code resp));
                ("body", body)]])%list /\
         (forall exc, response_json resp = Raised exc -> body = text resp)) /\
      (200 <= status_code resp < 300 ->
       exists rest,
         logged w1 = (logged w ++ LogEntry INFO "success" [] :: rest)%list /\
         (forall v, response_json resp = Returned v -> rest = []) /\
         (forall exc, response_json resp = Raised exc ->
            rest = [LogEntry ERROR "invalid_json" [("error", str_of exc)]]))
  | OtherFailure exc =>
      (isinstance exc [HttpxTimeoutException; HttpxTransportError] = true ->
       logged w1 =
         (logged w ++
          [LogEntry WARNING "network_error" [("error", str_of exc)]])%list) /\
      (isinstance exc [HttpxTimeoutException; HttpxTransportError] = false ->
       logged w1 = logged w)
  end.
Proof.
  intros w1. subst w1. rewrite request_wrapped_world. cbn [logged].
  destruct (simplex_send env (simplex_calls w)) as [timeout msg | resp | exc];
    [reflexivity | |].
  2:{ split; intros Hcls; rewrite Hcls; [reflexivity | apply app_nil_r]. }
  split; intros Hcode.
  - replace ((200 <=? status_code resp) && (status_code resp <? 300)) with false
      by (symmetry; apply andb_false_iff; lia).
    eexists. split; [reflexivity |].
    intros exc Hexc. rewrite Hexc. reflexivity.
  - replace ((200 <=? status_code resp) && (status_code resp <? 300)) with true
      by (symmetry; apply andb_true_iff; lia).
    eexists. split; [reflexivity |].
    split; intros x Hx; rewrite Hx; reflexivity.
Qed.

Lemma request_logging_witness :
  exists body,
    logged (snd (SimplexService._request_wrapped env_not_found "GET"
                   "/api/v2/patient-visit-histories" [] initial_world)) =
      [LogEntry ERROR "simplex_error_response"
         [("status_code", "404"); ("body", body)]] /\
    (forall exc, not_json = Raised exc -> body = "").
Proof.
  refine (proj1 (request_logging env_not_found "GET"
                   "/api/v2/patient-visit-histories" [] initial_world) _).
  right. simpl. lia.
Defined.

(** ** The decorated request *)

Lemma simplex_pause_world k e w :
  snd (sleep (wait simplex_retry k)
         (snd (before_sleep simplex_retry k (wait simplex_retry k) e w))) =
  {| simplex_calls := simplex_calls w;
     llm_calls := llm_calls w;
     llm_sent := llm_sent w;
     uuid_calls := uuid_calls w;
     now_ns := now_ns w + Z.max 0 (wait simplex_retry k) * 1000000000;
     slept := (slept w ++ [wait simplex_retry k])%list;
     logged :=
       (logged w ++
        [LogEntry WARNING "Retrying Simplex request"
           [("attempt", str_of_int (Z.of_nat k));
            ("wait_seconds", str_of_int (wait simplex_retry k));
            ("last_error", str_of e);
            ("error_type", class_name (type_of e))]])%list |}.
Proof. reflexivity. Qed.

(** The frame of the decorated request, by induction over the loop. *)
Lemma request_run_frame env method url params w :
  let w1 := snd (SimplexService._request env method url params w) in
  llm_calls w1 = llm_calls w /\
  llm_sent w1 = llm_sent w /\
  uuid_calls w1 = uuid_calls w /\
  now_ns w <= now_ns w1 /\
  (simplex_calls w < simplex_calls w1)%nat /\
  exists added, logged w1 = (logged w ++ added)%list.
Proof.
  unfold SimplexService._request, retrying.
  set (R := fun a b : world =>
              llm_calls b = llm_calls a /\
              llm_sent b = llm_sent a /\
              uuid_calls b = uuid_calls a /\
              now_ns a <= now_ns b /\
              (simplex_calls a <= simplex_calls b)%nat /\
              exists added, logged b = (logged a ++ added)%list).
  assert (Hfn : forall a, R a (snd (SimplexService._request_wrapped env method
                                      url params a)) /\
                          (simplex_calls a <
                           simplex_calls (snd (SimplexService._request_wrapped
                                                 env method url params a)))%nat).
  { intros a. rewrite request_wrapped_world. unfold R. cbn.
    repeat split; try lia. eexists. reflexivity. }
  assert (Htrans : forall a b c, R a b -> R b c -> R a c).
  { unfold R. intros a b c (L1 & M1 & U1 & N1 & C1 & l1 & G1)
      (L2 & M2 & U2 & N2 & C2 & l2 & G2).
    repeat split; try congruence; try lia.
    exists (l1 ++ l2)%list. rewrite G2, G1, app_assoc. reflexivity. }
  assert (Hpause : forall k e a,
            R a (snd (sleep (wait simplex_retry k)
                        (snd (before_sleep simplex_retry k
                                (wait simplex_retry k) e a))))).
  { intros k e a. rewrite simplex_pause_world. unfold R. cbn.
    repeat split; try lia. eexists. reflexivity. }
  (* the first attempt, then whatever the loop does after it *)
  rewrite retry_from_step.
  destruct (Hfn w) as [HR Hlt].
  destruct (SimplexService._request_wrapped env method url params w)
    as [[v | e] w1] eqn:E1; cbn [fst snd] in *.
  - unfold R in HR. intuition.
  - assert (Hend : llm_calls w1 = llm_calls w /\ llm_sent w1 = llm_sent w /\
                   uuid_calls w1 = uuid_calls w /\ now_ns w <= now_ns w1 /\
                   (simplex_calls w < simplex_calls w1)%nat /\
                   exists added, logged w1 = (logged w ++ added)%list)
      by (unfold R in HR; intuition).
    destruct (isinstance e (retry_if_exception_type simplex_retry));
      [| exact Hend].
    cbn [Nat.leb stop_after_attempt simplex_retry SIMPLEX_RETRY_ATTEMPTS].
    cbv zeta.
    pose proof (retry_from_related simplex_retry
                  (SimplexService._request_wrapped env method url params)
                  R Htrans (fun a => proj1 (Hfn a)) Hpause 2
                  (snd (sleep (wait simplex_retry 1)
                          (snd (before_sleep simplex_retry 1
                                  (wait simplex_retry 1) e w1))))) as Hrest.
    pose proof (Htrans _ _ _ (Htrans _ _ _ HR (Hpause 1%nat e w1)) Hrest) as Hall.
    unfold R in Hall. destruct Hall as (L & M & U & N & C & G).
    pose proof (Hpause 1%nat e w1) as (_ & _ & _ & _ & Cp & _).
    destruct Hrest as (_ & _ & _ & _ & Cr & _).
    repeat split; try assumption. lia.
Qed.

(** X5: [_request], retries included, leaves the model API and the uuid
    generator alone, never turns the clock back, only adds to the log, and
    only adds to the requests sent. *)
Theorem request_frame env method url params w :
  let w1 := snd (SimplexService._request env method url params w) in
  llm_calls w1 = llm_calls w /\
  llm_sent w1 = llm_sent w /\
  uuid_calls w1 = uuid_calls w /\
  now_ns w <= now_ns w1 /\
  (simplex_calls w < simplex_calls w1)%nat /\
  exists added, logged w1 = (logged w ++ added)%list.
Proof. exact (request_run_frame env method url params w). Qed.

Lemma count_event_app event l1 l2 :
  count_event event (l1 ++ l2)%list
  = (count_event event l1 + count_event event l2)%nat.
Proof. unfold count_event. rewrite filter_app, length_app. reflexivity. Qed.

(** Requests, sleeps and retry warnings of the decorated request. *)
Lemma request_run_counted env method url params w :
  let w1 := snd (SimplexService._request env method url params w) in
  exists n,
    (n <= 2)%nat /\
    simplex_calls w1 = (simplex_calls w + S n)%nat /\
    slept w1 = (slept w ++ firstn n [2; 4])%list /\
    count_event "Retrying Simplex request" (logged w1)
    = (count_event "Retrying Simplex request" (logged w) + n)%nat.
Proof.
  unfold SimplexService._request, retrying.
  set (fn := SimplexService._request_wrapped env method url params).
  set (count := count_event "Retrying Simplex request").
  destruct (retry_from_counted simplex_retry fn simplex_calls) with (k := 1%nat) (w := w)
    as (n & Hn & Hcalls & Hslept).
  { intros a. unfold fn. rewrite request_wrapped_world. reflexivity. }
  { intros a. unfold fn. rewrite request_wrapped_world. reflexivity. }
  { intros k e a. unfold after_pause. rewrite simplex_pause_world. reflexivity. }
  { intros k e a. unfold after_pause. rewrite simplex_pause_world. reflexivity. }
  assert (Hlog :
    (count (logged (snd (retry_from simplex_retry fn 1 w))) + List.length (slept w)
     = count (logged w) + List.length (slept (snd (retry_from simplex_retry fn 1 w))))%nat).
  { apply (retry_from_related simplex_retry fn
             (fun a b => (count (logged b) + List.length (slept a)
                          = count (logged a) + List.length (slept b))%nat)).
    - intros a b c H1 H2. lia.
    - intros a. unfold fn. rewrite request_wrapped_world. cbn [logged slept].
      unfold count. rewrite count_event_app.
      destruct (simplex_send env (simplex_calls a)) as [t m | resp | exc].
      3:{ destruct (isinstance exc _); cbn;
          generalize (count_event "Retrying Simplex request" (logged a));
          clear; intros c; lia. }
      + cbn. generalize (count_event "Retrying Simplex request" (logged a)).
        clear. intros c. lia.
      + destruct ((200 <=? status_code resp) && (status_code resp <? 300));
          [destruct (response_json resp) |]; cbn;
          generalize (count_event "Retrying Simplex request" (logged a));
          clear; intros c; lia.
    - intros k e a. unfold after_pause. rewrite simplex_pause_world.
      cbn [logged slept].
      unfold count. rewrite count_event_app, length_app. cbn.
      generalize (count_event "Retrying Simplex request" (logged a)).
      clear. intros c. lia. }
  change (n <= 2)%nat in Hn.
  exists n. split; [lia |]. split; [exact Hcalls |].
  assert (Hwaits : map (wait simplex_retry) (seq 1 n) = firstn n [2; 4]).
  { destruct n as [| [| [| n]]]; try reflexivity. lia. }
  split.
  - rewrite Hslept, Hwaits. reflexivity.
  - rewrite Hslept, length_app, length_map, length_seq in Hlog.
    revert Hlog. unfold count.
    generalize (count_event "Retrying Simplex request"
                  (logged (snd (retry_from simplex_retry fn 1 w)))).
    generalize (count_event "Retrying Simplex request" (logged w)).
    clear. intros c c' H. lia.
Qed.

(** X6: [_request] logs one "Retrying Simplex request" warning per sleep,
    and sleeps once per request after the first: with [n + 1] requests
    sent, [n <= 2], there are [n] sleeps, of 2 then 4 seconds, and [n] new
    warnings. *)
Theorem request_retry_logging env method url params w :
  let w1 := snd (SimplexService._request env method url params w) in
  exists n,
    (n <= 2)%nat /\
    simplex_calls w1 = (simplex_calls w + S n)%nat /\
    slept w1 = (slept w ++ firstn n [2; 4])%list /\
    count_event "Retrying Simplex request" (logged w1)
    = (count_event "Retrying Simplex request" (logged w) + n)%nat.
Proof. exact (request_run_counted env method url params w). Qed.

(** ** What one chat completion leaves in the world *)

(** The messages [chat_completion] builds. *)
Lemma chat_completion_world env prompt system_prompt model_name w :
  let model' := match model_name with
                | None => config_model env
                | Some m => m
                end in
  let messages := match system_prompt with
                  | Some (String c rest) =>
                      [("system", String c rest); ("user", prompt)]
                  | _ => [("user", prompt)]
                  end in
  snd (LLMService.chat_completion env prompt system_prompt model_name w) =
  {| simplex_calls := simplex_calls w;
     llm_calls := S (llm_calls w);
     llm_sent := (llm_sent w ++ [ChatRequest model' messages])%list;
     uuid_calls := uuid_calls w;
     now_ns := now_ns w + Z.of_N (llm_took env (llm_calls w));
     slept := slept w;
     logged :=
       (logged w ++
        LogEntry INFO "Starting structured generation" [("model", model')] ::
        match llm_create env (llm_calls w) with
        | Raised e =>
            [LogEntry ERROR
               (if isinstance e [RateLimitError; APIError; APIConnectionError;
                                 APITimeoutError; TimeoutError]
                then "Chat completion attempt failed"
                else "Chat completion failed")
               [("error", str_of e)]]
        | Returned response =>
            [match usage response with
             | None =>
                 LogEntry WARNING
                   "No usage data in response; skipping cost calculation"
                   [("model", model response)]
             | Some u =>
                 LogEntry INFO "Chat completion completed"
                   [("model", model response);
                    ("prompt_tokens", str_of_int (prompt_tokens u));
                    ("completion_tokens", str_of_int (completion_tokens u));
                    ("total_tokens", str_of_int (total_tokens u))]
             end]
        end)%list |}.
Proof.
  unfold LLMService.chat_completion, LLMService.create, LLMService._log_response,
    try_except, bind, ret, raise, monotonic, log.
  cbv zeta. cbn [fst snd simplex_calls llm_calls llm_sent uuid_calls now_ns
                 slept logged].
  destruct (llm_create env (llm_calls w)) as [response | e].
  - destruct (usage response); destruct (choices response);
      destruct system_prompt as [[| ch tl] |]; cbn;
      rewrite <- ?app_assoc; reflexivity.
  - destruct (isinstance e _); destruct system_prompt as [[| ch tl] |]; cbn;
      rewrite <- ?app_assoc; reflexivity.
Qed.

(** X1: the request [chat_completion] sends.  Each call sends exactly one
    request; its model is the per-call override when one is given and the
    configured model otherwise; its messages end with the prompt as the
    user turn, preceded by the system prompt when one is given and is not
    empty.  [anonymize] therefore sends the configured model, the
    anonymization prompt and the caller's text, whatever the text is, the
    empty text included. *)
Theorem chat_completion_request env prompt system_prompt model_name w :
  let w1 := snd (LLMService.chat_completion env prompt system_prompt model_name w) in
  (exists request,
     llm_sent w1 = (llm_sent w ++ [request])%list /\
     llm_calls w1 = S (llm_calls w) /\
     req_model request = match model_name with
                         | Some m => m
                         | None => config_model env
                         end /\
     (forall sp, system_prompt = Some sp -> sp <> "" ->
        req_messages request = [("system", sp); ("user", prompt)]) /\
     (system_prompt = None \/ system_prompt = Some "" ->
        req_messages request = [("user", prompt)])) /\
  (ANONYMIZE_PROMPT env <> "" ->
   llm_sent (snd (LLMService.anonymize env prompt w)) =
     (llm_sent w ++
      [ChatRequest (config_model env)
         [("system", ANONYMIZE_PROMPT env); ("user", prompt)]])%list).
Proof.
  intros w1. subst w1. split.
  - rewrite chat_completion_world. cbv zeta. cbn [llm_sent llm_calls].
    eexists. split; [reflexivity |]. split; [reflexivity |].
    cbn [req_model req_messages].
    split; [destruct model_name; reflexivity |]. split.
    + intros sp -> Hsp. destruct sp; [contradiction | reflexivity].
    + intros [-> | ->]; reflexivity.
  - intros Hprompt. unfold LLMService.anonymize.
    rewrite chat_completion_world. cbv zeta. cbn [llm_sent].
    destruct (ANONYMIZE_PROMPT env); [contradiction | reflexivity].
Qed.

Lemma chat_completion_request_witness :
  llm_sent (snd (LLMService.anonymize env_anonymized "" initial_world)) =
    [ChatRequest "anonymizer-1"
       [("system", "You are a medical data anonymization specialist.");
        ("user", "")]].
Proof.
  refine (proj2 (chat_completion_request env_anonymized "" None None
                   initial_world) _).
  discriminate.
Defined.

(** X2: what [chat_completion] logs and raises.  A failure of the call to
    the model API reaches the caller as the same exception, after one ERROR
    entry: "Chat completion attempt failed" when the exception is an
    instance of one of the five listed classes, "Chat completion failed"
    otherwise.  A response is followed by one entry about its usage, a
    WARNING when the usage is absent, and by no ERROR entry, also when its
    list of choices is empty and the [IndexError] is raised. *)
Theorem chat_completion_logging env prompt system_prompt model_name w :
  let run := LLMService.chat_completion env prompt system_prompt model_name w in
  exists started,
    log_level started = INFO /\
    log_event started = "Starting structured generation" /\
    match llm_create env (llm_calls w) with
    | Raised e =>
        fst run = Raised e /\
        exists failed,
          logged (snd run) = (logged w ++ [started; failed])%list /\
          log_level failed = ERROR /\
          log_event failed =
            (if isinstance e [RateLimitError; APIError; APIConnectionError;
                              APITimeoutError; TimeoutError]
             then "Chat completion attempt failed"
             else "Chat completion failed") /\
          log_fields failed = [("error", str_of e)]
    | Returned response =>
        exists completed,
          logged (snd run) = (logged w ++ [started; completed])%list /\
          log_level completed <> ERROR /\
          (usage response = None <-> log_level completed = WARNING)
    end.
Proof.
  intros run. subst run.
  destruct (chat_completion_run env prompt system_prompt model_name w)
    as (w1 & E & _).
  rewrite chat_completion_world. cbv zeta. cbn [logged].
  exists (LogEntry INFO "Starting structured generation"
            [("model", match model_name with
                       | None => config_model env
                       | Some m => m
                       end)]).
  split; [reflexivity |]. split; [reflexivity |].
  rewrite E. cbn [fst].
  destruct (llm_create env (llm_calls w)) as [response | e].
  - eexists. split; [reflexivity |].
    destruct (usage response); cbn; split; try discriminate;
      split; intros H; try reflexivity; discriminate H.
  - split; [reflexivity |]. eexists. split; [reflexivity |].
    repeat split; reflexivity.
Qed.

(** X3: the five classes that [openai_retry] retries on, and that the
    first [except] clause of [chat_completion] catches, match exactly the
    instances of [APIError] and of [TimeoutError]: the three other classes
    derive from [APIError].  A [BadRequestError], which derives from
    [APIStatusError], matches. *)
Theorem openai_retry_predicate (e : exception) :
  isinstance e (retry_if_exception_type openai_retry)
    = isinstance e [APIError; TimeoutError] /\
  (type_of e = BadRequestError ->
   isinstance e (retry_if_exception_type openai_retry) = true).
Proof.
  split.
  - destruct e as [c m cause | code detail cause]; [| reflexivity].
    destruct c; reflexivity.
  - destruct e as [c m cause | code detail cause]; cbn [type_of];
      intros H; [subst c; reflexivity | discriminate H].
Qed.

Lemma openai_retry_predicate_witness :
  isinstance (Exc BadRequestError "Invalid request" None)
    (retry_if_exception_type openai_retry) = true.
Proof.
  exact (proj2 (openai_retry_predicate
                  (Exc BadRequestError "Invalid request" None)) eq_refl).
Defined.

(** ** What the handlers do upstream *)

Lemma anonymize_world env text w :
  exists request entries,
    let w1 := snd (LLMService.anonymize env text w) in
    simplex_calls w1 = simplex_calls w /\
    slept w1 = slept w /\
    uuid_calls w1 = uuid_calls w /\
    llm_calls w1 = S (llm_calls w) /\
    llm_sent w1 = (llm_sent w ++ [request])%list /\
    logged w1 = (logged w ++ entries)%list /\
    req_model request = config_model env /\
    last (req_messages request) ("", "") = ("user", text).
Proof.
  unfold LLMService.anonymize. rewrite chat_completion_world. cbv zeta.
  do 2 eexists.
  cbn [simplex_calls slept uuid_calls llm_calls llm_sent logged].
  repeat split; try reflexivity.
  cbn [req_messages]. destruct (ANONYMIZE_PROMPT env); reflexivity.
Qed.

Lemma get_patient_visit_history_effects env permanent_mrn_no permanent_visit_no w :
  let w1 := snd (SimplexService.get_patient_visit_history env permanent_mrn_no
                   permanent_visit_no w) in
  llm_calls w1 = llm_calls w /\
  llm_sent w1 = llm_sent w /\
  uuid_calls w1 = uuid_calls w /\
  exists n,
    (n <= 2)%nat /\
    simplex_calls w1 = (simplex_calls w + S n)%nat /\
    slept w1 = (slept w ++ firstn n [2; 4])%list.
Proof.
  intros w1. subst w1.
  rewrite (get_patient_visit_history_run env permanent_mrn_no permanent_visit_no w).
  cbv zeta.
  match goal with
  | |- context [SimplexService._request ?e ?m ?u ?ps ?w0] =>
      pose proof (request_run_frame e m u ps w0) as (L & M & U & _);
      pose proof (request_run_counted e m u ps w0) as (n & Hn & Hc & Hs & _);
      set (fetched := SimplexService._request e m u ps w0) in *
  end.
  cbn [log snd llm_calls llm_sent uuid_calls simplex_calls slept] in L, M, U, Hc, Hs.
  assert (Hw : forall (r : outcome SimplexPatientVisitHistoryResponse * world),
            snd r = snd fetched ->
            llm_calls (snd r) = llm_calls w /\ llm_sent (snd r) = llm_sent w /\
            uuid_calls (snd r) = uuid_calls w /\
            exists n, (n <= 2)%nat /\
              simplex_calls (snd r) = (simplex_calls w + S n)%nat /\
              slept (snd r) = (slept w ++ firstn n [2; 4])%list).
  { intros r ->. repeat split; try assumption. exists n. repeat split; assumption. }
  apply Hw.
  destruct (fst fetched) as [payload | e]; [| reflexivity].
  destruct (validate_response payload); reflexivity.
Qed.

Lemma patient_visit_histories_world env permanent_mrn_no permanent_visit_no w :
  let fetch := SimplexService.get_patient_visit_history env permanent_mrn_no
                 permanent_visit_no w in
  snd (main.patient_visit_histories env permanent_mrn_no permanent_visit_no w) =
    match fst fetch with
    | Raised e =>
        snd (log ERROR "Simplex patient visit history fetch failed"
               [("error", str_of e)] (snd fetch))
    | Returned resp =>
        let anon := LLMService.anonymize env (message resp) (snd fetch) in
        match fst anon with
        | Raised e =>
            snd (log ERROR "Message anonymization failed"
                   [("error", str_of e)] (snd anon))
        | Returned _ => snd anon
        end
    end.
Proof.
  intros fetch. subst fetch.
  unfold main.patient_visit_histories.
  unfold bind at 1. unfold try_except at 1.
  destruct (SimplexService.get_patient_visit_history env permanent_mrn_no
              permanent_visit_no w) as [[resp | e] w1]; cbn [fst snd].
  - unfold bind, try_except. cbv zeta.
    destruct (LLMService.anonymize env (message resp) w1) as [[[m |] | e] w2];
      reflexivity.
  - reflexivity.
Qed.

(** X7: what GET /ehr/patient-visit-histories costs upstream.  It sends
    between one and three requests to the hospital API, sleeping 2 seconds
    before the second and 4 before the third, and draws no uuid.  When the
    fetch fails it makes no call to the model API; when the fetch returns
    it makes exactly one, with the configured model and the fetched message
    as the user turn, and never a second one when that call fails. *)
Theorem visit_histories_upstream_calls env permanent_mrn_no permanent_visit_no w :
  let fetch := SimplexService.get_patient_visit_history env permanent_mrn_no
                 permanent_visit_no w in
  let w1 := snd (main.patient_visit_histories env permanent_mrn_no
                   permanent_visit_no w) in
  uuid_calls w1 = uuid_calls w /\
  (exists n,
     (n <= 2)%nat /\
     simplex_calls w1 = (simplex_calls w + S n)%nat /\
     slept w1 = (slept w ++ firstn n [2; 4])%list) /\
  match fst fetch with
  | Raised _ => llm_calls w1 = llm_calls w /\ llm_sent w1 = llm_sent w
  | Returned resp =>
      llm_calls w1 = S (llm_calls w) /\
      exists request,
        llm_sent w1 = (llm_sent w ++ [request])%list /\
        req_model request = config_model env /\
        last (req_messages request) ("", "") = ("user", message resp)
  end.
Proof.
  intros fetch w1. subst w1.
  rewrite (patient_visit_histories_world env permanent_mrn_no permanent_visit_no w).
  cbv zeta. fold fetch.
  pose proof (get_patient_visit_history_effects env permanent_mrn_no
                permanent_visit_no w) as (L & M & U & n & Hn & Hc & Hs).
  fold fetch in L, M, U, Hc, Hs.
  destruct (fst fetch) as [resp | e].
  - destruct (anonymize_world env (message resp) (snd fetch))
      as (request & entries & Hc2 & Hs2 & U2 & L2 & M2 & _ & Hmodel & Hlast).
    assert (Hw : forall w2 : world,
              simplex_calls w2 = simplex_calls
                                   (snd (LLMService.anonymize env (message resp)
                                           (snd fetch))) ->
              slept w2 = slept (snd (LLMService.anonymize env (message resp)
                                       (snd fetch))) ->
              uuid_calls w2 = uuid_calls (snd (LLMService.anonymize env
                                                 (message resp) (snd fetch))) ->
              llm_calls w2 = llm_calls (snd (LLMService.anonymize env
                                               (message resp) (snd fetch))) ->
              llm_sent w2 = llm_sent (snd (LLMService.anonymize env
                                             (message resp) (snd fetch))) ->
              uuid_calls w2 = uuid_calls w /\
              (exists n, (n <= 2)%nat /\
                 simplex_calls w2 = (simplex_calls w + S n)%nat /\
                 slept w2 = (slept w ++ firstn n [2; 4])%list) /\
              llm_calls w2 = S (llm_calls w) /\
              exists request,
                llm_sent w2 = (llm_sent w ++ [request])%list /\
                req_model request = config_model env /\
                last (req_messages request) ("", "") = ("user", message resp)).
    { intros w2 -> -> -> -> ->. split; [congruence |]. split.
      - exists n. repeat split; congruence.
      - split; [congruence |]. exists request. rewrite M2, M.
        repeat split; assumption. }
    destruct (fst (LLMService.anonymize env (message resp) (snd fetch)))
      as [anonymized | e]; apply Hw; reflexivity.
  - cbn. split; [exact U |]. split; [| split; assumption].
    exists n. repeat split; assumption.
Qed.

(** X8: what POST /anonymize costs upstream, whatever it answers: exactly
    one call to the model API, with the configured model and the request's
    text as the user turn; no request to the hospital API; no sleep. *)
Theorem anonymize_handler_effects env request w :
  let w1 := snd (main.anonymize env request w) in
  simplex_calls w1 = simplex_calls w /\
  slept w1 = slept w /\
  llm_calls w1 = S (llm_calls w) /\
  exists sent_request,
    llm_sent w1 = (llm_sent w ++ [sent_request])%list /\
    req_model sent_request = config_model env /\
    last (req_messages sent_request) ("", "") = ("user", models.data request).
Proof.
  intros w1. subst w1.
  unfold main.anonymize, main.new_uuid.
  unfold bind, try_except, monotonic, log, ret, raise.
  cbv beta iota. cbn [fst snd].
  set (w0 := {| simplex_calls := simplex_calls w; llm_calls := llm_calls w;
                llm_sent := llm_sent w; uuid_calls := S (uuid_calls w);
                now_ns := now_ns w; slept := slept w; logged := logged w |}).
  destruct (anonymize_world env (models.data request) w0)
    as (sent_request & entries & Hc & Hs & _ & L & M & _ & Hmodel & Hlast).
  cbv zeta in *. subst w0.
  cbn [simplex_calls slept llm_calls llm_sent] in Hc, Hs, L, M.
  destruct (LLMService.anonymize env (models.data request) _)
    as [[[anonymized |] | e] w2]; cbn [fst snd] in *; cbn;
    (repeat split; try assumption); exists sent_request;
    repeat split; assumption.
Qed.

(** X9: the error entries of GET /ehr/patient-visit-histories.  A failed
    fetch ends the log with an ERROR entry that carries the failure's text;
    so does an anonymization call that raises, before the handler falls
    back to the original message.  When the anonymization call returns,
    none included, the handler adds no entry of its own: the fallback on a
    none result is silent. *)
Theorem visit_histories_error_logging env permanent_mrn_no permanent_visit_no w :
  let fetch := SimplexService.get_patient_visit_history env permanent_mrn_no
                 permanent_visit_no w in
  let w1 := snd (main.patient_visit_histories env permanent_mrn_no
                   permanent_visit_no w) in
  match fst fetch with
  | Raised e =>
      logged w1 =
        (logged (snd fetch) ++
         [LogEntry ERROR "Simplex patient visit history fetch failed"
            [("error", str_of e)]])%list
  | Returned resp =>
      let anon := LLMService.anonymize env (message resp) (snd fetch) in
      match fst anon with
      | Raised e =>
          logged w1 =
            (logged (snd anon) ++
             [LogEntry ERROR "Message anonymization failed"
                [("error", str_of e)]])%list
      | Returned _ => logged w1 = logged (snd anon)
      end
  end.
Proof.
  intros fetch w1. subst w1.
  rewrite (patient_visit_histories_world env permanent_mrn_no permanent_visit_no w).
  cbv zeta. fold fetch.
  destruct (fst fetch) as [resp | e]; [| reflexivity].
  destruct (fst (LLMService.anonymize env (message resp) (snd fetch)));
    reflexivity.
Qed.

(** ** The base URL of the hospital API *)

Lemma rstrip_snoc chars s c :
  char_in c chars = true ->
  rstrip chars (s ++ String c "") = rstrip chars s.
Proof.
  intros Hc. induction s as [| a s IH]; cbn.
  - rewrite Hc. reflexivity.
  - rewrite IH. reflexivity.
Qed.

Lemma strip_cons chars s c :
  char_in c chars = true ->
  strip chars (String c s) = strip chars s.
Proof.
  intros Hc. unfold strip. cbn.
  destruct (rstrip chars s) as [| a kept] eqn:E.
  - rewrite Hc. reflexivity.
  - cbn -[char_in]. rewrite Hc. reflexivity.
Qed.

Lemma strip_snoc chars s c :
  char_in c chars = true ->
  strip chars (s ++ String c "") = strip chars s.
Proof. intros Hc. unfold strip. rewrite rstrip_snoc by exact Hc. reflexivity. Qed.

Lemma strip_slashes n : strip "/" (slashes n) = "".
Proof.
  induction n as [| n IH]; [reflexivity |].
  cbn [slashes]. rewrite strip_cons by reflexivity. exact IH.
Qed.

(** X10: [_build_api_base_url] does not depend on a slash at the end of the
    base URL, nor on a slash at either end of the tenant path; the location
    id and the API key play no part. *)
Theorem build_api_base_url_slashes base tenant loc key loc' key' :
  let url b t l k :=
    SimplexService._build_api_base_url
      {| config.base_url := b; config.tenant_path := t;
         config.location_id := l; config.api_key := k |} in
  url (base ++ "/") tenant loc key = url base tenant loc key /\
  url base ("/" ++ tenant) loc key = url base tenant loc key /\
  url base (tenant ++ "/") loc key = url base tenant loc key /\
  url base tenant loc' key' = url base tenant loc key.
Proof.
  intros url. subst url. unfold SimplexService._build_api_base_url.
  cbn [config.base_url config.tenant_path].
  repeat split.
  - rewrite rstrip_snoc by reflexivity. reflexivity.
  - change ("/" ++ tenant) with (String "/" tenant).
    rewrite strip_cons by reflexivity. reflexivity.
  - rewrite strip_snoc by reflexivity. reflexivity.
Qed.

(** X11: with a tenant path that is empty or made of slashes only, as in
    the default configuration, [_build_api_base_url] gives the base URL
    followed by two slashes and "api". *)
Theorem build_api_base_url_empty_tenant base n loc key :
  SimplexService._build_api_base_url
    {| config.base_url := base; config.tenant_path := slashes n;
       config.location_id := loc; config.api_key := key |}
  = rstrip "/" base ++ "//api" /\
  SimplexService._build_api_base_url config.default_SimplexConfig
  = "https://dxb5.simplexworld.com//api".
Proof.
  split; [| reflexivity].
  unfold SimplexService._build_api_base_url.
  cbn [config.base_url config.tenant_path].
  rewrite strip_slashes. reflexivity.
Qed.

(** ** Appointments by date *)

(** A first attempt that returns is the whole run of the decorated request. *)
Lemma request_returns_at_once env method url params w v :
  fst (SimplexService._request_wrapped env method url params w) = Returned v ->
  SimplexService._request env method url params w
  = SimplexService._request_wrapped env method url params w.
Proof.
  intros Hv. unfold SimplexService._request, retrying.
  rewrite retry_from_step.
  destruct (SimplexService._request_wrapped env method url params w)
    as [[v' | e] w1]; [reflexivity | discriminate Hv].
Qed.

(** X12: [appointments_by_date] does not raise on an error count reported
    in the body.  When the request is answered with a status in [200,300)
    and a body that validates, the validated response is returned whatever
    its [error_count], after one request and no sleep; the warning about a
    non-zero error count is logged once when the count is not zero and not
    at all when it is zero. *)
Theorem appointments_error_count
    validate_int env config date w resp payload result :
  simplex_send env (simplex_calls w) = Responded resp ->
  200 <= status_code resp < 300 ->
  response_json resp = Returned payload ->
  appointments.validate_response validate_int payload = Some result ->
  let run := SimplexService.appointments_by_date validate_int env config date w in
  fst run = Returned result /\
  simplex_calls (snd run) = S (simplex_calls w) /\
  slept (snd run) = slept w /\
  count_event "Simplex responded with non-zero error_count" (logged (snd run))
  = (count_event "Simplex responded with non-zero error_count" (logged w)
     + if (appointments.error_count result =? 0)%Z then 0 else 1)%nat.
Proof.
  intros Hsend Hcode Hjson Hvalid run.
  assert (Hrun : exists w1,
            run = (Returned result, w1) /\
            simplex_calls w1 = S (simplex_calls w) /\
            slept w1 = slept w /\
            count_event "Simplex responded with non-zero error_count" (logged w1)
            = (count_event "Simplex responded with non-zero error_count" (logged w)
               + if (appointments.error_count result =? 0)%Z then 0 else 1)%nat).
  { subst run. unfold SimplexService.appointments_by_date.
    unfold appointments.model_validate. unfold bind, log, ret, raise.
    cbn [fst snd].
    match goal with
    | |- context [SimplexService._request ?e ?m ?u ?ps ?w0] =>
        assert (Hres : fst (SimplexService._request_wrapped e m u ps w0)
                       = Returned payload);
        [ rewrite request_wrapped_result; cbn [simplex_calls];
          rewrite Hsend; cbv zeta;
          destruct (Z.leb_spec 200 (status_code resp)); [| lia];
          destruct (Z.ltb_spec (status_code resp) 300); [| lia];
          rewrite Hjson; reflexivity
        | rewrite (request_returns_at_once e m u ps w0 Hres);
          pose proof (request_wrapped_world e m u ps w0) as Hworld;
          destruct (SimplexService._request_wrapped e m u ps w0) as [r w1] ]
    end.
    cbn [fst snd] in Hres, Hworld. subst r.
    cbn [simplex_calls llm_calls llm_sent uuid_calls now_ns slept logged] in Hworld.
    rewrite Hsend in Hworld.
    replace ((200 <=? status_code resp) && (status_code resp <? 300)) with true
      in Hworld by (symmetry; apply andb_true_iff; lia).
    rewrite Hjson in Hworld. rewrite Hvalid. cbv beta iota zeta.
    destruct (Z.eqb_spec (appointments.error_count result) 0) as [Hz | Hnz];
      cbn [negb]; subst w1; eexists; (split; [reflexivity |]);
      cbn [simplex_calls slept logged];
      (split; [reflexivity |]); (split; [reflexivity |]);
      rewrite <- ?app_assoc, count_event_app; cbn;
      generalize (count_event "Simplex responded with non-zero error_count"
                    (logged w)); clear; intros c; lia. }
  destruct Hrun as (w1 & -> & Hc & Hs & Hcount). cbn [fst snd].
  repeat split; assumption.
Qed.

Lemma appointments_error_count_witness :
  let run := SimplexService.appointments_by_date validate_int_strict
               env_appointments_errors config.default_SimplexConfig
               {| dt.year := 2024; dt.month := 3; dt.day := 7 |}
               initial_world in
  fst run = Returned {| appointments.error_count := 3;
                        appointments.message := "partial failure";
                        appointments.result_count := 0;
                        appointments.data := [] |} /\
  simplex_calls (snd run) = 1%nat /\
  slept (snd run) = [] /\
  count_event "Simplex responded with non-zero error_count" (logged (snd run))
  = 1%nat.
Proof.
  apply (appointments_error_count validate_int_strict env_appointments_errors
           config.default_SimplexConfig
           {| dt.year := 2024; dt.month := 3; dt.day := 7 |} initial_world
           (resp := {| status_code := 200;
                       response_json := Returned appointments_error_payload;
                       text := "" |})
           (payload := appointments_error_payload)).
  - reflexivity.
  - simpl. lia.
  - reflexivity.
  - reflexivity.
Defined.

(** ** Recovery from a transient failure *)

(** A retryable first failure followed by a result: two requests, one sleep
    of 2 seconds, and the result. *)
Lemma request_second_returns env method url params w e v :
  attempt_outcome env method url params (simplex_calls w) = Raised e ->
  retryable e = true ->
  attempt_outcome env method url params (S (simplex_calls w)) = Returned v ->
  fst (SimplexService._request env method url params w) = Returned v /\
  simplex_calls (snd (SimplexService._request env method url params w))
    = S (S (simplex_calls w)) /\
  slept (snd (SimplexService._request env method url params w))
    = (slept w ++ [2])%list.
Proof.
  intros H1 Hretry H2. unfold SimplexService._request, retrying.
  destruct (request_wrapped_run env method url params w)
    as (w1 & E1 & C1 & S1 & _).
  rewrite retry_from_step, E1, H1.
  unfold retryable in Hretry. rewrite Hretry.
  change (stop_after_attempt simplex_retry <=? 1)%nat with false.
  cbv iota zeta. rewrite simplex_pause_world.
  match goal with
  | |- context [retry_from _ _ 2 ?w2] =>
      destruct (request_wrapped_run env method url params w2)
        as (w3 & E3 & C3 & S3 & _);
      cbn [simplex_calls slept] in E3, C3, S3
  end.
  rewrite retry_from_step, E3, C1, H2. cbn [fst snd].
  rewrite C3, S3, ?C1, S1. repeat split; reflexivity.
Qed.

(** X13: a transient failure of the hospital API is invisible to the
    caller.  When the first request of the fetch fails with a retryable
    failure and the second is answered with a payload that validates,
    GET /ehr/patient-visit-histories answers 200 with the status flag and
    the records of that payload, after two requests and one sleep of 2
    seconds. *)
Theorem visit_histories_recovers
    env permanent_mrn_no permanent_visit_no w e payload resp :
  let attempt k :=
    attempt_outcome env "GET" "/api/v2/patient-visit-histories"
      (visit_history_params permanent_mrn_no permanent_visit_no)
      (simplex_calls w + k) in
  attempt 0%nat = Raised e ->
  retryable e = true ->
  attempt 1%nat = Returned payload ->
  validate_response payload = Some resp ->
  let run := main.patient_visit_histories env permanent_mrn_no
               permanent_visit_no w in
  response_status (fst run) = 200 /\
  (exists out, fst run = Returned out /\
               status out = status resp /\ data out = data resp) /\
  simplex_calls (snd run) = (simplex_calls w + 2)%nat /\
  slept (snd run) = (slept w ++ [2])%list.
Proof.
  intros attempt H0 Hretry H1 Hvalid run. subst attempt run.
  cbv beta in H0, H1.
  rewrite Nat.add_0_r in H0.
  replace (simplex_calls w + 1)%nat with (S (simplex_calls w)) in H1 by lia.
  pose proof (get_patient_visit_history_run env permanent_mrn_no
                permanent_visit_no w) as Hfetch. cbv zeta in Hfetch.
  match type of Hfetch with
  | context [SimplexService._request ?e' ?m ?u ?ps ?w0] =>
      destruct (request_second_returns e' m u ps w0 (e := e) (v := payload))
        as (Hfst & Hcalls & Hslept); [exact H0 | exact Hretry | exact H1 |]
  end.
  cbn [log snd simplex_calls slept] in Hcalls, Hslept.
  rewrite Hfst, Hvalid in Hfetch.
  rewrite (patient_visit_histories_run env permanent_mrn_no permanent_visit_no w),
    (patient_visit_histories_world env permanent_mrn_no permanent_visit_no w).
  cbv zeta. rewrite Hfetch. cbn [fst snd].
  match goal with
  | |- context [LLMService.anonymize env (message resp) ?w2] =>
      destruct (anonymize_world env (message resp) w2)
        as (request & entries & Hc2 & Hs2 & _);
      destruct (LLMService.anonymize env (message resp) w2)
        as [[[m |] | e2] w3]
  end; cbn [fst snd log simplex_calls slept] in *;
    (split; [reflexivity |]);
    (split; [eexists; split; [reflexivity | split; reflexivity] |]);
    rewrite Hc2, Hs2, Hcalls, Hslept; (split; [lia | reflexivity]).
Qed.

Lemma visit_histories_recovers_witness :
  let run := main.patient_visit_histories env_recovers "MRN1" "V1"
               initial_world in
  response_status (fst run) = 200 /\
  (exists out, fst run = Returned out /\
               status out = true /\ data out = []) /\
  simplex_calls (snd run) = 2%nat /\
  slept (snd run) = [2].
Proof.
  apply (visit_histories_recovers env_recovers "MRN1" "V1" initial_world
           (e := Exc SimplexNetworkError "Network error during Simplex request"
                   (Some (Exc HttpxTimeoutException "timed out" None)))
           (payload := headache_payload)
           (resp := {| status := true; message := "Patient reports headache";
                       data := [] |}));
    reflexivity.
Defined.
